(** * A shallow embedding of [build.py], the WASI compatibility-matrix harness

    The harness discovers compiled test programs, loads one JSON
    specification per test, runs every test through every configured
    runner inside a freshly provisioned sandbox directory, records
    ["pass"] or ["fail"] per cell and renders the grid as an HTML table.

    Python values are modelled as follows: [str] as [string], [int] as
    [Z], [None]-able values as [option], insertion-ordered [dict]s as
    association lists updated in place, exceptions as an error monad
    layered over an explicit state (the file store and an event log).
    What the script obtains from the operating system and from the
    Python/JavaScript standard libraries is collected in the record
    [Host]. *)

From Stdlib Require Import String Ascii List ZArith Bool Arith Lia.
From Stdlib Require Import Permutation Sorted Mergesort Orders DecimalString.
Import ListNotations.

Set Warnings "-register-all".

Local Open Scope string_scope.
Local Open Scope list_scope.

Notation "a +++ b" := (String.append a b) (at level 60, right associativity).

(** ** Strings *)

Module Str.

Fixpoint drop (n : nat) (s : string) : string :=
  match n, s with
  | O, _ => s
  | S _, EmptyString => EmptyString
  | S n', String _ s' => drop n' s'
  end.

Fixpoint take (n : nat) (s : string) : string :=
  match n, s with
  | O, _ => EmptyString
  | S _, EmptyString => EmptyString
  | S n', String c s' => String c (take n' s')
  end.

Definition startswith (s p : string) : bool := String.prefix p s.

Definition endswith (s p : string) : bool :=
  (String.length p <=? String.length s)%nat
  && (drop (String.length s - String.length p) s =? p).

(** [s.replace(old, new)] for a non-empty [old]: non-overlapping
    occurrences, scanned left to right.  [skip] counts the characters of
    a match that are still to be consumed. *)
Fixpoint replace_from (skip : nat) (old new s : string) : string :=
  match s with
  | EmptyString => EmptyString
  | String c s' =>
      match skip with
      | S k => replace_from k old new s'
      | O =>
          if String.prefix old s
          then new +++ replace_from (String.length old - 1) old new s'
          else String c (replace_from O old new s')
      end
  end.

Definition replace (s old new : string) : string := replace_from O old new s.

(** [s] without the leading [pre] and the trailing [suf], when it has
    both. *)
Definition strip (pre suf s : string) : option string :=
  let rest := drop (String.length pre) s in
  if startswith s pre && endswith rest suf
  then Some (take (String.length rest - String.length suf) rest)
  else None.

Fixpoint repeat (c : string) (n : nat) : string :=
  match n with
  | O => EmptyString
  | S n' => c +++ repeat c n'
  end.

(** [p in s] *)
Fixpoint contains (s p : string) : bool :=
  String.prefix p s
  || match s with
     | EmptyString => false
     | String _ s' => contains s' p
     end.

(** Formatting of an [int] inside an f-string. *)
Definition of_Z (z : Z) : string := NilZero.string_of_int (Z.to_int z).

End Str.

(** ** Insertion-ordered dictionaries *)

Section Dict.
Context {V : Type}.

Definition dict : Type := list (string * V).

Fixpoint dict_get (d : dict) (k : string) : option V :=
  match d with
  | [] => None
  | (k', v) :: d' => if k' =? k then Some v else dict_get d' k
  end.

(** [d[k] = v]: an existing key keeps its position. *)
Fixpoint dict_set (d : dict) (k : string) (v : V) : dict :=
  match d with
  | [] => [(k, v)]
  | (k', v') :: d' =>
      if k' =? k then (k', v) :: d' else (k', v') :: dict_set d' k v
  end.

Definition dict_keys (d : dict) : list string := map fst d.

Definition dict_values (d : dict) : list V := map snd d.

(** The invariant of every Python [dict]: keys are pairwise distinct. *)
Definition dict_wf (d : dict) : Prop := NoDup (dict_keys d).

(** A dict display [{k1: v1, k2: v2, ...}]. *)
Definition dict_of (l : list (string * V)) : dict :=
  fold_left (fun d kv => dict_set d (fst kv) (snd kv)) l [].
End Dict.

Arguments dict V : clear implicits.

(** ** Data model *)

(** The specification document of one test, as [json.load] returns it.
    Every key may be missing; [.get(key, default)] then yields the
    default. *)
Module TestSpec.
Record t : Type := Build {
  env : option (dict string);
  args : option (list string);
  preopens : option (dict string);
  stdin : option string;
  stdout : option string;
  stderr : option string;
  exitCode : option Z
}.

Definition empty : t := Build None None None None None None None.
End TestSpec.

(** [subprocess.CompletedProcess] with captured, decoded output. *)
Module Process.
Record t : Type := Build {
  args : list string;
  returncode : Z;
  stdout : string;
  stderr : string
}.
End Process.

(** The exceptions the script can meet; all derive from [Exception]. *)
Inductive Exception : Type :=
| AssertionError (msg : string)
| CalledProcessError (returncode : Z) (cmd : list string)
| FileNotFoundError (filename : string)
| FileExistsError (filename : string)
| IsADirectoryError (filename : string)
| NotADirectoryError (filename : string)
| JSONDecodeError
| UnicodeDecodeError
| KeyError (key : string)
| NameError (name : string)
| AttributeError (name : string)
| OSError (errno : string) (filename : string).

Inductive result (A : Type) : Type :=
| Ok (a : A)
| Raise (e : Exception).

Arguments Ok {A} a.
Arguments Raise {A} e.

(** ** The file store *)

Inductive FsNode : Type :=
| FsFile (content : string)
| FsLink (target : string)
| FsDir (mode : Z) (entries : list (string * FsNode)).

(** The store maps a path to the tree rooted there. *)
Definition FS : Type := dict FsNode.

(** The module's runner functions, as first-class values. *)
Inductive Runner : Type :=
| Fn_run_deno_test
| Fn_test_node
| Fn_run_wasmer_test
| Fn_run_wasmtime_test.

Inductive Event : Type :=
| EvMkdtemp (testdir : string)
| EvCopytree (src dst : string) (symlinks : bool)
| EvCall (f : Runner) (testmod testdir : string)
| EvSpawn (cmd : list string) (cwd : string) (stdin : option string).

Record State : Type := mkState {
  fs : FS;
  events : list Event
}.

(** JavaScript values, for the bootstrap scripts. *)
Inductive JsVal : Type :=
| JsUndefined
| JsNull
| JsNumber (z : Z)
| JsString (s : string)
| JsArray (l : list JsVal)
| JsObject (l : list (string * JsVal)).

(** What [json.load] can return: an object, read as a [TestSpec.t] (its
    fields are taken to have the types of the schema), or any other JSON
    value.  Only an object has the method [get]. *)
Inductive Document : Type :=
| DocObject (testspec : TestSpec.t)
| DocOther (value : JsVal).

Coercion DocObject : TestSpec.t >-> Document.

(** What the script takes from its environment.  An engine is taken as a
    function of its command line, working directory and input. *)
Record Host : Type := mkHost {
  (** [glob.glob(pattern)], in directory order *)
  glob_glob : string -> list string;
  (** the text of the bytes of a file opened in text mode; [None] is a
      [UnicodeDecodeError] *)
  decode : string -> option string;
  (** [json.loads] on a text; [None] is a [JSONDecodeError] *)
  json_loads : string -> option Document;
  (** [json.dumps] *)
  json_dumps : Document -> string;
  (** JavaScript's [JSON.parse]; [None] is a thrown [SyntaxError] *)
  JSON_parse : string -> option JsVal;
  (** [os.path.abspath] *)
  os_path_abspath : string -> string;
  (** the name [tempfile.mkdtemp] picks, given the existing paths *)
  mkdtemp_name : list string -> string;
  (** [subprocess.run(cmd, cwd=..., input=..., capture_output=True)]:
      the completed process, or the exception of a failed launch *)
  subprocess_run : list string -> string -> option string -> result Process.t
}.

(** ** The state-and-exception monad *)

Definition M (A : Type) : Type := State -> result A * State.

Definition ret {A} (a : A) : M A := fun st => (Ok a, st).

Definition raise {A} (e : Exception) : M A := fun st => (Raise e, st).

Definition bind {A B} (m : M A) (k : A -> M B) : M B :=
  fun st =>
    match m st with
    | (Ok a, st') => k a st'
    | (Raise e, st') => (Raise e, st')
    end.

Notation "x <- m ;; k" := (bind m (fun x => k))
  (at level 100, m at next level, right associativity).
Notation "m ;;; k" := (bind m (fun _ => k))
  (at level 100, right associativity).

Definition lift {A} (r : result A) : M A := fun st => (r, st).

Definition log (e : Event) : M unit :=
  fun st => (Ok tt, mkState (fs st) (events st ++ [e])).

Definition get_fs : M FS := fun st => (Ok (fs st), st).

Definition put_fs (f : FS) : M unit := fun st => (Ok tt, mkState f (events st)).

(** [for x in l: body], threading an accumulator. *)
Fixpoint for_each {A B} (l : list A) (body : A -> B -> M B) (acc : B) : M B :=
  match l with
  | [] => ret acc
  | x :: l' => acc' <- body x acc ;; for_each l' body acc'
  end.

(** ** File operations *)

(** Where following the symbolic links from a path ends.  The target of
    a link is read as a path of the store. *)
Inductive Resolved : Type :=
| AtFile (path content : string)
| AtDir (path : string) (mode : Z) (entries : list (string * FsNode))
| AtNothing (path : string)
| TooManyLinks.

(** The system follows at most this many links before it gives up with
    [ELOOP]. *)
Definition MAXSYMLINKS : nat := 40.

Fixpoint walk (f : FS) (links : nat) (path : string) : Resolved :=
  match dict_get f path with
  | None => AtNothing path
  | Some (FsFile content) => AtFile path content
  | Some (FsDir mode entries) => AtDir path mode entries
  | Some (FsLink target) =>
      match links with
      | O => TooManyLinks
      | S links' => walk f links' target
      end
  end.

Definition resolve (f : FS) (path : string) : Resolved :=
  walk f MAXSYMLINKS path.

Arguments resolve : simpl never.

(** [open(path, "r").read()], before decoding: the bytes of the file the
    path leads to. *)
Definition read_file (path : string) : M string :=
  f <- get_fs ;;
  match resolve f path with
  | AtFile _ content => ret content
  | AtDir _ _ _ => raise (IsADirectoryError path)
  | AtNothing _ => raise (FileNotFoundError path)
  | TooManyLinks => raise (OSError "ELOOP" path)
  end.

(** [open(path, "w").write(content)]: the file the path leads to is
    replaced, or created where a chain of links ends in nothing. *)
Definition write_file (path content : string) : M unit :=
  f <- get_fs ;;
  match resolve f path with
  | AtFile target _ | AtNothing target =>
      put_fs (dict_set f target (FsFile content))
  | AtDir _ _ _ => raise (IsADirectoryError path)
  | TooManyLinks => raise (OSError "ELOOP" path)
  end.

(** [os.path.join(a, b)] on POSIX. *)
Definition os_path_join (a b : string) : string :=
  if Str.startswith b "/" then b
  else if (a =? "") || Str.endswith a "/" then a +++ b
  else a +++ "/" +++ b.

(** What [shutil.copytree] makes of a node.  With [symlinks] a link is
    recreated as a link; without, it is replaced by what [follow] finds
    behind it. *)
Fixpoint copy_node (symlinks : bool) (follow : string -> FsNode) (n : FsNode)
    : FsNode :=
  match n with
  | FsFile c => FsFile c
  | FsLink target => if symlinks then FsLink target else follow target
  | FsDir mode entries =>
      FsDir mode
        ((fix copy_entries (l : list (string * FsNode)) :=
            match l with
            | [] => []
            | (name, child) :: l' =>
                (name, copy_node symlinks follow child) :: copy_entries l'
            end) entries)
  end.

(** ** Sorting test identifiers

    [sorted] on a list of [str] orders by code point, which on the
    encoded bytes is the lexicographic order of [String.leb]. *)

Module StringOrder <: TotalLeBool.
Definition t := string.
Definition leb := String.leb.
Definition leb_total : forall x y, leb x y = true \/ leb y x = true :=
  String.leb_total.
End StringOrder.

Module StringSort := Sort StringOrder.

Definition sorted (l : list string) : list string := StringSort.sort l.

(** ** Generated bootstrap scripts *)

Definition dq : string := String (ascii_of_nat 34) EmptyString.
Definition nl : string := String (ascii_of_nat 10) EmptyString.

Definition unlines (l : list string) : string :=
  fold_right (fun line rest => line +++ nl +++ rest) "" l.

(** The text written to [.test.deno.ts], after [textwrap.dedent]. *)
Definition deno_script : string :=
  unlines
    [ "";
      "import Context from " +++ dq
        +++ "https://deno.land/std/wasi/snapshot_preview1.ts" +++ dq +++ ";";
      "";
      "const options = JSON.parse(Deno.args[0]);";
      "const buffer = Deno.readFileSync(Deno.args[1]);";
      "";
      "const pathname = Deno.args[1];";
      "const context = new Context({";
      "  env: options.env,";
      "  args: [pathname].concat(options.args),";
      "  preopens: options.preopens,";
      "});";
      "";
      "WebAssembly.instantiate(buffer, {";
      "  wasi_snapshot_preview1: context.exports,";
      "}).then(function({ instance }) {";
      "    context.memory = instance.exports.memory;";
      "    instance.exports._start();";
      "});" ].

(** The text written to [.node.js], after [textwrap.dedent]. *)
Definition node_script : string :=
  unlines
    [ "";
      "const fs = require(" +++ dq +++ "fs" +++ dq +++ ");";
      "const { WASI } = require(" +++ dq +++ "wasi" +++ dq +++ ");";
      "";
      "const options = JSON.parse(process.argv[2]);";
      "const buffer = fs.readFileSync(process.argv[3]);";
      "";
      "const pathname = process.argv[3];";
      "const wasi = new WASI({";
      "  env: options.env,";
      "  args: [pathname].concat(options.args],";
      "  preopens: options.preopens,";
      "});";
      "WebAssembly.instantiate(buffer, {";
      "  wasi_snapshot_preview1: wasi.wasiImport,";
      "}).then(function({ instance }) {";
      "    wasi.start(instance);";
      "});" ].

(** ** What the deno bootstrap does with its arguments *)

(** The options object handed to [new Context({...})]. *)
Record WasiOptions : Type := mkWasiOptions {
  wo_env : JsVal;
  wo_args : list JsVal;
  wo_preopens : JsVal
}.

(** [o.k]; [None] is the [TypeError] of reading a property of [null] or
    [undefined]. *)
Definition js_prop (o : JsVal) (k : string) : option JsVal :=
  match o with
  | JsUndefined | JsNull => None
  | JsObject l =>
      match dict_get l k with
      | Some v => Some v
      | None => Some JsUndefined
      end
  | _ => Some JsUndefined
  end.

(** [a.concat(v)]: an array argument is spread, any other value is
    appended as one element. *)
Definition js_concat (a : list JsVal) (v : JsVal) : list JsVal :=
  match v with
  | JsArray l => a ++ l
  | _ => a ++ [v]
  end.

(** The command line of [deno run [flags] script args...]: the script and
    the list the script sees as [Deno.args]. *)
Fixpoint skip_flags (l : list string) : list string :=
  match l with
  | [] => []
  | x :: l' => if Str.startswith x "-" then skip_flags l' else l
  end.

Definition deno_cli (cmd : list string) : option (string * list string) :=
  match cmd with
  | "deno" :: "run" :: rest =>
      match skip_flags rest with
      | script :: Deno_args => Some (script, Deno_args)
      | [] => None
      end
  | _ => None
  end.

(** The JSON value of a specification document. *)
Definition js_of_dict (d : dict string) : JsVal :=
  JsObject (map (fun kv => (fst kv, JsString (snd kv))) d).

Definition js_field {A} (k : string) (f : A -> JsVal) (o : option A)
    : list (string * JsVal) :=
  match o with
  | Some a => [(k, f a)]
  | None => []
  end.

Definition js_of_spec (s : TestSpec.t) : JsVal :=
  JsObject
    (js_field "env" js_of_dict (TestSpec.env s)
     ++ js_field "args" (fun a => JsArray (map JsString a)) (TestSpec.args s)
     ++ js_field "preopens" js_of_dict (TestSpec.preopens s)
     ++ js_field "stdin" JsString (TestSpec.stdin s)
     ++ js_field "stdout" JsString (TestSpec.stdout s)
     ++ js_field "stderr" JsString (TestSpec.stderr s)
     ++ js_field "exitCode" JsNumber (TestSpec.exitCode s)).

(** One cell of the matrix: [{"status": ..., "error": ...}]. *)
Record TestResult : Type := mkTestResult {
  status : option string;
  error : option string
}.

Definition set_status (r : TestResult) (s : string) : TestResult :=
  mkTestResult (Some s) (error r).

(** An f-string field holding a [str] or [None]. *)
Definition fmt (s : option string) : string :=
  match s with
  | Some s => s
  | None => "None"
  end.

Definition css : string :=
  unlines
    [ "";
      "html {"; "  box-sizing: border-box;"; "}"; "";
      "*, *:before, *:after {"; "  box-sizing: inherit;"; "}"; "";
      "body {"; "    background-color: #fff;"; "    color: #000;";
      "    display: inline-block;";
      "    font-family: 'Open Sans', sans-serif;";
      "    font-weight: 300;"; "    margin: 0;"; "    width: 100%;"; "}"; "";
      "h1 {"; "    text-align: center;"; "}"; "";
      "table {"; "    width: 100%;"; "}"; "";
      "th {"; "    font-size: 16px;"; "    text-align: left;"; "}"; "";
      "th:first-child {"; "    text-align: center;"; "}"; "";
      ".pass {"; "    color: green;"; "}"; "";
      ".fail {"; "    color: red;"; "}" ].

(** ** The program *)

Section Program.
Variable h : Host.

(** [d[k]] *)
Definition getitem {V} (d : dict V) (k : string) : M V :=
  match dict_get d k with
  | Some v => ret v
  | None => raise (KeyError k)
  end.

Definition try_except {A} (body : M A) (handler : Exception -> M A) : M A :=
  fun st =>
    match body st with
    | (Ok a, st') => (Ok a, st')
    | (Raise e, st') => handler e st'
    end.

(** [tempfile.mkdtemp()]: a directory that did not exist, created with
    mode [0o700]. *)
Definition tempfile_mkdtemp : M string :=
  f <- get_fs ;;
  let name := mkdtemp_name h (dict_keys f) in
  match dict_get f name with
  | Some _ => raise (FileExistsError name)
  | None =>
      put_fs (dict_set f name (FsDir 448 [])) ;;;
      log (EvMkdtemp name) ;;;
      ret name
  end.

Definition follow_link (f : FS) (target : string) : FsNode :=
  match resolve f target with
  | AtFile _ content => FsFile content
  | AtDir _ mode entries => FsDir mode entries
  | AtNothing _ | TooManyLinks => FsLink target
  end.

(** [shutil.copytree(src, dst, symlinks=symlinks)].  The source itself is
    listed through any link that leads to it; the links inside it are
    copied as [symlinks] says.  The destination must not exist, not even
    as a link. *)
Definition shutil_copytree (src dst : string) (symlinks : bool) : M unit :=
  f <- get_fs ;;
  match resolve f src with
  | AtNothing _ => raise (FileNotFoundError src)
  | AtFile _ _ => raise (NotADirectoryError src)
  | TooManyLinks => raise (OSError "ELOOP" src)
  | AtDir _ mode entries =>
      match dict_get f dst with
      | Some _ => raise (FileExistsError dst)
      | None =>
          put_fs (dict_set f dst
                    (copy_node symlinks (follow_link f) (FsDir mode entries))) ;;;
          log (EvCopytree src dst symlinks)
      end
  end.

(** [subprocess.run(testcmd, cwd=testdir, encoding="utf8", input=stdin,
    capture_output=True)] *)
Definition subprocess_run_in (testcmd : list string) (testdir : string)
    (stdin : option string) : M Process.t :=
  log (EvSpawn testcmd testdir stdin) ;;;
  lift (subprocess_run h testcmd testdir stdin).

(** [expected != None and expected != actual] *)
Definition differs (expected : option string) (actual : string) : bool :=
  match expected with
  | None => false
  | Some e => negb (e =? actual)
  end.

(** [process.check_returncode()] *)
Definition check_returncode (process : Process.t) : M unit :=
  if (Process.returncode process =? 0)%Z then ret tt
  else raise (CalledProcessError (Process.returncode process)
                (Process.args process)).

(** Every reading of the document is a [testspec.get(...)]: on a document
    that is not an object the first one raises [AttributeError]. *)
Definition run_test (testcmd : list string) (testdir : string)
    (testspec : Document) : M Process.t :=
  match testspec with
  | DocOther _ => raise (AttributeError "get")
  | DocObject testspec =>
  let stdin := TestSpec.stdin testspec in
  process <- subprocess_run_in testcmd testdir stdin ;;

  let stdout := TestSpec.stdout testspec in
  (if differs stdout (Process.stdout process)
   then raise (AssertionError ("Expected stdout to yield " +++ fmt stdout
                                 +++ ", got " +++ Process.stdout process))
   else ret tt) ;;;

  let stderr := TestSpec.stderr testspec in
  (if differs stdout (Process.stdout process)
   then raise (AssertionError ("Expected stdout to yield " +++ fmt stdout
                                 +++ ", got " +++ Process.stdout process))
   else ret tt) ;;;

  let returncode := TestSpec.exitCode testspec in
  match returncode with
  | Some rc =>
      if negb (rc =? Process.returncode process)%Z
      then raise (AssertionError
                    ("Expected process to exit with " +++ Str.of_Z rc
                       +++ ", got " +++ Str.of_Z (Process.returncode process)))
      else ret process
  | None => check_returncode process ;;; ret process
  end
  end.

Definition run_deno_test (testmod testdir : string) (testspec : Document)
    : M Process.t :=
  let testcmd := ["deno"; "run"] in

  let testcmd := testcmd ++ ["--quiet"] in
  let testcmd := testcmd ++ ["--allow-all"] in
  let testcmd := testcmd ++ ["--unstable"] in

  write_file ".test.deno.ts" deno_script ;;;

  let testcmd := testcmd ++ [os_path_abspath h ".test.deno.ts"] in

  let testcmd := testcmd ++ [json_dumps h testspec] in
  let testcmd := testcmd ++ [testmod] in

  run_test testcmd testdir testspec.

(** The script [.test.deno.ts], run with the given [Deno.args]: the
    options it builds for the guest. *)
Definition deno_bootstrap (Deno_args : list string) : option WasiOptions :=
  match Deno_args with
  | a0 :: a1 :: _ =>
      match JSON_parse h a0 with
      | None => None
      | Some options =>
          let pathname := a1 in
          match js_prop options "env", js_prop options "args",
                js_prop options "preopens" with
          | Some e, Some a, Some p =>
              Some (mkWasiOptions e (js_concat [JsString pathname] a) p)
          | _, _, _ => None
          end
      end
  | _ => None
  end.

(** [test_node] reads the undefined name [filepath] before it reaches
    [run_test]. *)
Definition test_node (testmod testdir : string) (testspec : Document)
    : M Process.t :=
  let testcmd := ["node"] in

  let testcmd := testcmd ++ ["--no-warnings"] in
  let testcmd := testcmd ++ ["--experimental-wasi-unstable-preview1"] in
  let testcmd := testcmd ++ ["--experimental-wasm-bigint"] in

  write_file ".node.js" node_script ;;;

  let testcmd := testcmd ++ [os_path_abspath h ".node.js"] in

  let testcmd := testcmd ++ [json_dumps h testspec] in
  filepath <- raise (NameError "filepath") ;;
  let testcmd := testcmd ++ [filepath] in

  run_test testcmd testdir testspec.

Definition run_wasmer_test (testmod testdir : string) (testspec : Document)
    : M Process.t :=
  let testcmd := ["wasmer"; "run"] in

  match testspec with
  | DocOther _ => raise (AttributeError "get")
  | DocObject testspec =>
  let env := match TestSpec.env testspec with Some e => e | None => [] end in
  testcmd <- for_each (dict_keys env) (fun key testcmd =>
    let testcmd := testcmd ++ ["--env"] in
    v <- getitem env key ;;
    ret (testcmd ++ [key +++ "=" +++ v])) testcmd ;;

  let preopens :=
    match TestSpec.preopens testspec with Some p => p | None => [] end in
  testcmd <- for_each (dict_keys preopens) (fun path testcmd =>
    let testcmd := testcmd ++ ["--mapdir"] in
    v <- getitem preopens path ;;
    ret (testcmd ++ [path +++ "::" +++ v])) testcmd ;;

  let testcmd := testcmd ++ [testmod] in

  let args := match TestSpec.args testspec with Some a => a | None => [] end in
  let testcmd :=
    if (0 <? List.length args)%nat then testcmd ++ ["--"] else testcmd in

  testcmd <- for_each args (fun arg testcmd => ret (testcmd ++ [arg]))
               testcmd ;;

  run_test testcmd testdir testspec
  end.

Definition run_wasmtime_test (testmod testdir : string)
    (testspec : Document) : M Process.t :=
  let testcmd := ["wasmtime"; "run"] in

  match testspec with
  | DocOther _ => raise (AttributeError "get")
  | DocObject testspec =>
  let env := match TestSpec.env testspec with Some e => e | None => [] end in
  testcmd <- for_each (dict_keys env) (fun key testcmd =>
    let testcmd := testcmd ++ ["--env"] in
    v <- getitem env key ;;
    ret (testcmd ++ [key +++ "=" +++ v])) testcmd ;;

  let preopens :=
    match TestSpec.preopens testspec with Some p => p | None => [] end in
  testcmd <- for_each (dict_keys preopens) (fun path testcmd =>
    let testcmd := testcmd ++ ["--mapdir"] in
    v <- getitem preopens path ;;
    ret (testcmd ++ [path +++ "::" +++ v])) testcmd ;;

  let testcmd := testcmd ++ [testmod] in

  let args := match TestSpec.args testspec with Some a => a | None => [] end in
  let testcmd :=
    if (0 <? List.length args)%nat then testcmd ++ ["--"] else testcmd in

  testcmd <- for_each args (fun arg testcmd => ret (testcmd ++ [arg]))
               testcmd ;;

  run_test testcmd testdir testspec
  end.

(** Calling a runner value. *)
Definition call (test : Runner) (testmod testdir : string)
    (testspec : Document) : M Process.t :=
  log (EvCall test testmod testdir) ;;;
  match test with
  | Fn_run_deno_test => run_deno_test testmod testdir testspec
  | Fn_test_node => test_node testmod testdir testspec
  | Fn_run_wasmer_test => run_wasmer_test testmod testdir testspec
  | Fn_run_wasmtime_test => run_wasmtime_test testmod testdir testspec
  end.

(** [json.load(open(path))] *)
Definition json_load (path : string) : M Document :=
  bytes <- read_file path ;;
  match decode h bytes with
  | None => raise UnicodeDecodeError
  | Some text =>
      match json_loads h text with
      | Some testspec => ret testspec
      | None => raise JSONDecodeError
      end
  end.

Definition Matrix : Type := dict (dict TestResult).

(** The [try]/[except] statement of [run_tests]: the runner's exception,
    whatever it is, becomes the status ["fail"]. *)
Definition try_test (test : Runner) (testmod testdir : string)
    (testspec : Document) (testresult : TestResult) : M TestResult :=
  try_except
    (process <- call test (os_path_abspath h testmod) testdir testspec ;;
     ret (set_status testresult "pass"))
    (fun _ => ret (set_status testresult "fail")).

(** The body of the inner loop of [run_tests]: one cell. *)
Definition run_cell (testrunners : dict Runner) (testmod : string)
    (testspec : Document) (testcmd : string) (testresults : Matrix)
    : M Matrix :=
  test <- getitem testrunners testcmd ;;

  testdir <- tempfile_mkdtemp ;;
  shutil_copytree "tests/fixtures" (os_path_join testdir "fixtures") true ;;;

  let testresult := mkTestResult None None in

  testresult <- try_test test testmod testdir testspec testresult ;;
  (* finally *)
  row <- getitem testresults testmod ;;
  ret (dict_set testresults testmod (dict_set row testcmd testresult)).

(** The body of the outer loop of [run_tests]: one row. *)
Definition run_row (testrunners : dict Runner) (testmod : string)
    (testresults : Matrix) : M Matrix :=
  let testresults := dict_set testresults testmod [] in

  testspec <- json_load (Str.replace testmod ".wasm" ".json") ;;

  for_each (dict_keys testrunners)
    (run_cell testrunners testmod testspec) testresults.

Definition run_tests (tests : list string) (testrunners : dict Runner)
    : M Matrix :=
  let testresults := [] in
  for_each tests (run_row testrunners) testresults.

Definition tests : list string := sorted (glob_glob h "tests/*.wasm").

Definition testrunners : dict Runner :=
  dict_of [ ("deno", Fn_run_deno_test);
            ("node", Fn_run_deno_test);
            ("wasmer", Fn_run_wasmtime_test);
            ("wasmtime", Fn_run_wasmtime_test) ].

(** The sequence of [file.write] arguments that make up [index.html]. *)
Definition render_cell (row : dict TestResult) (testcmd : string)
    (written : list string) : M (list string) :=
  testresult <- getitem row testcmd ;;
  ret (written
         ++ ["<td class='" +++ fmt (status testresult) +++ "'>";
             fmt (status testresult);
             "</td>"]).

Definition render_row (testresults : Matrix) (testmod : string)
    (written : list string) : M (list string) :=
  let written := written ++ ["<tr>"; "<td>" +++ testmod +++ "</td>"] in
  row <- getitem testresults testmod ;;
  written <- for_each (dict_keys row) (render_cell row) written ;;
  ret (written ++ ["</tr>"]).

Definition report_title : string :=
  "WebAssembly System Interface Compatability Matrix".

Definition render (testrunners : dict Runner) (testresults : Matrix)
    : M (list string) :=
  let written :=
    [ "<!doctype html>"; "<html>"; "<head>";
      "<title>" +++ report_title +++ "</title>";
      "<style>" +++ css +++ "</style>";
      "</head>"; "<body>";
      "<h1>" +++ report_title +++ "</h1>";
      "<table>"; "<thead>"; "<tr>"; "<th>Test</th>" ] in

  written <- for_each (dict_keys testrunners) (fun testcmd written =>
    ret (written ++ ["<th>" +++ testcmd +++ "</th>"])) written ;;

  let written := written ++ ["</tr>"; "</thead>"] in

  written <- for_each (dict_keys testresults) (render_row testresults)
               written ;;

  ret (written ++ ["</table>"; "</body>" +++ nl; "</html>" +++ nl]).

(** The module body: discover, run, render, write [index.html]. *)
Definition main : M unit :=
  testresults <- run_tests tests testrunners ;;
  written <- render testrunners testresults ;;
  write_file "index.html" (String.concat "" written).

End Program.

(** ** Reading the rendered report *)

Fixpoint filter_map {A B} (f : A -> option B) (l : list A) : list B :=
  match l with
  | [] => []
  | x :: l' =>
      match f x with
      | Some y => y :: filter_map f l'
      | None => filter_map f l'
      end
  end.

(** The verdict labels of the outcome cells, in document order: one per
    write of [<td class='LABEL'>]. *)
Definition report_cells (written : list string) : list string :=
  filter_map (Str.strip "<td class='" "'>") written.

(** The test identifiers that head the rows, in document order. *)
Definition report_rows (written : list string) : list string :=
  filter_map (Str.strip "<td>" "</td>") written.

(** The column headings after the fixed first heading [Test]. *)
Definition report_columns (written : list string) : list string :=
  tl (filter_map (Str.strip "<th>" "</th>") written).

(** [testresults[testmod][testcmd]], when both keys exist. *)
Definition cell (testresults : dict (dict TestResult)) (testmod testcmd : string)
    : option TestResult :=
  match dict_get testresults testmod with
  | Some row => dict_get row testcmd
  | None => None
  end.

(** ** Reading the event log *)

(** The directories made by [tempfile.mkdtemp], oldest first. *)
Definition sandboxes (evs : list Event) : list string :=
  filter_map (fun e => match e with EvMkdtemp d => Some d | _ => None end) evs.

(** The sandbox of each runner call, oldest first. *)
Definition call_dirs (evs : list Event) : list string :=
  filter_map (fun e => match e with EvCall _ _ d => Some d | _ => None end) evs.

(** The engine binary a runner launches. *)
Definition engine (test : Runner) : string :=
  match test with
  | Fn_run_deno_test => "deno"
  | Fn_test_node => "node"
  | Fn_run_wasmer_test => "wasmer"
  | Fn_run_wasmtime_test => "wasmtime"
  end.

(** The host [h] with other engines behind [subprocess.run]. *)
Definition with_engines
    (run : list string -> string -> option string -> result Process.t)
    (h : Host) : Host :=
  mkHost (glob_glob h) (decode h) (json_loads h) (json_dumps h) (JSON_parse h)
    (os_path_abspath h) (mkdtemp_name h) run.

(** The host on which the binary [b] is not installed: launching it fails
    with [FileNotFoundError]. *)
Definition uninstall (b : string) (h : Host) : Host :=
  with_engines
    (fun cmd cwd stdin =>
       if hd "" cmd =? b then Raise (FileNotFoundError b)
       else subprocess_run h cmd cwd stdin)
    h.

(** The command line of a native runner, in closed form. *)
Definition native_flags (flag sep : string) (d : dict string) : list string :=
  flat_map (fun kv => [flag; fst kv +++ sep +++ snd kv]) d.

Definition native_cmd (binary testmod : string) (env preopens : dict string)
    (args : list string) : list string :=
  [binary; "run"]
    ++ native_flags "--env" "=" env
    ++ native_flags "--mapdir" "::" preopens
    ++ [testmod]
    ++ match args with
       | [] => []
       | _ :: _ => "--" :: args
       end.

(** A computation that raises from every state. *)
Definition raises {A} (m : M A) : Prop :=
  forall st, exists e st', m st = (Raise e, st').

(** ** A concrete host and corpus, for evaluation *)

Module Example.

Definition fixtures : FsNode :=
  FsDir 493 [ ("hello.txt", FsFile "hello");
              ("link", FsLink "hello.txt");
              ("sub", FsDir 493 [("up", FsLink "..")]) ].

Definition store : FS :=
  [ ("tests/fixtures", fixtures);
    ("tests/a.json", FsFile "A");
    ("tests/b.json", FsFile "B") ].

Definition st0 : State := mkState store [].

(** The same corpus with [tests/fixtures] a symbolic link to the tree. *)
Definition linked_st0 : State :=
  mkState [ ("shared/fixtures", fixtures);
            ("tests/fixtures", FsLink "shared/fixtures");
            ("tests/b.json", FsFile "B") ] [].

(** A byte that starts no UTF-8 sequence, and a store in which the
    document of [b] holds it. *)
Definition latin1 : string := String (Ascii.ascii_of_nat 233) "".

Definition latin1_st : State :=
  mkState [ ("tests/fixtures", fixtures); ("tests/b.json", FsFile latin1) ] [].

(** The document [A] expects all three outputs, [B] expects nothing. *)
Definition specA : TestSpec.t :=
  TestSpec.Build (Some [("HOME", "/")]) (Some ["--flag"])
    (Some [("/fixtures", "fixtures")]) None (Some "ok") (Some "") (Some 0%Z).

Definition specB : TestSpec.t := TestSpec.empty.

Definition utf8 (bytes : string) : option string :=
  if Str.contains bytes latin1 then None else Some bytes.

(** The texts [A] and [B] are the two documents, [L] is a JSON list. *)
Definition loads (text : string) : option Document :=
  if text =? "A" then Some (DocObject specA)
  else if text =? "B" then Some (DocObject specB)
  else if text =? "L" then Some (DocOther (JsArray []))
  else None.

Definition dumps (d : Document) : string :=
  match d with
  | DocObject s =>
      match TestSpec.args s with
      | Some _ => "A"
      | None => "B"
      end
  | DocOther _ => "L"
  end.

Definition parse (text : string) : option JsVal :=
  match loads text with
  | Some (DocObject s) => Some (js_of_spec s)
  | Some (DocOther v) => Some v
  | None => None
  end.

Definition host (run : list string -> string -> option string
                       -> result Process.t) : Host :=
  mkHost (fun _ => ["tests/b.wasm"; "tests/a.wasm"]) utf8 loads dumps parse
    (fun path => "/work/" +++ path)
    (fun existing => "/tmp/tmp" +++ Str.repeat "x" (List.length existing))
    run.

(** Every engine prints [ok] on stdout and [panic] on stderr, and exits
    with status 0. *)
Definition noisy (cmd : list string) (cwd : string) (stdin : option string)
    : result Process.t :=
  Ok (Process.Build cmd 0 "ok" "panic").

(** Every engine exits with status 1 and prints nothing. *)
Definition failing (cmd : list string) (cwd : string) (stdin : option string)
    : result Process.t :=
  Ok (Process.Build cmd 1 "" "").

(** Every engine prints [ok] and exits with status 0. *)
Definition quiet (cmd : list string) (cwd : string) (stdin : option string)
    : result Process.t :=
  Ok (Process.Build cmd 0 "ok" "").

(** No engine is installed: every launch fails. *)
Definition absent (cmd : list string) (cwd : string) (stdin : option string)
    : result Process.t :=
  Raise (FileNotFoundError (hd "" cmd)).

Definition only_wasmtime : dict Runner := [("wasmtime", Fn_run_wasmtime_test)].

(** A whole run of the configured harness on the two tests. *)
Definition run : result (dict (dict TestResult)) * State :=
  run_tests (host quiet) (tests (host quiet)) testrunners st0.

Definition matrix : dict (dict TestResult) :=
  match fst run with
  | Ok testresults => testresults
  | Raise _ => []
  end.

End Example.

(** A JavaScript property that may be missing. *)
Definition js_of_option {A} (f : A -> JsVal) (o : option A) : JsVal :=
  match o with
  | Some a => f a
  | None => JsUndefined
  end.


(** Directories and links of the store [f] are still there, unchanged, in
    [f'], and no path of [f] is missing from [f']. *)
Definition dirs_stable (f f' : FS) : Prop :=
  (forall p mode entries,
      dict_get f p = Some (FsDir mode entries) ->
      dict_get f' p = Some (FsDir mode entries))
  /\ (forall p target,
      dict_get f p = Some (FsLink target) ->
      dict_get f' p = Some (FsLink target))
  /\ (forall p, dict_get f' p = None -> dict_get f p = None).



(** The body that [run_wasmer_test] and [run_wasmtime_test] share, with the
    binary as a parameter. *)
Definition native_runner (h : Host) (binary testmod testdir : string)
    (testspec : TestSpec.t) : M Process.t :=
  let testcmd := [binary; "run"] in
  let env := match TestSpec.env testspec with Some e => e | None => [] end in
  testcmd <- for_each (dict_keys env) (fun key testcmd =>
    let testcmd := testcmd ++ ["--env"] in
    v <- getitem env key ;;
    ret (testcmd ++ [key +++ "=" +++ v])) testcmd ;;
  let preopens :=
    match TestSpec.preopens testspec with Some p => p | None => [] end in
  testcmd <- for_each (dict_keys preopens) (fun path testcmd =>
    let testcmd := testcmd ++ ["--mapdir"] in
    v <- getitem preopens path ;;
    ret (testcmd ++ [path +++ "::" +++ v])) testcmd ;;
  let testcmd := testcmd ++ [testmod] in
  let args := match TestSpec.args testspec with Some a => a | None => [] end in
  let testcmd :=
    if (0 <? List.length args)%nat then testcmd ++ ["--"] else testcmd in
  testcmd <- for_each args (fun arg testcmd => ret (testcmd ++ [arg]))
               testcmd ;;
  run_test h testcmd testdir testspec.


(** Two dicts with the same keys in the same order and values related,
    key by key, by [R]. *)
Definition dict_rel {V} (R : string -> V -> V -> Prop) (d1 d2 : dict V) : Prop :=
  Forall2 (fun a b => fst a = fst b /\ R (fst a) (snd a) (snd b)) d1 d2.

(** The cell of column [testcmd] on a host without the binary [b],
    against the same cell on the host with it. *)
Definition cell_rel (b : string) (testrunners : dict Runner) (testcmd : string)
    (x1 x2 : TestResult) : Prop :=
  match dict_get testrunners testcmd with
  | Some test =>
      if engine test =? b then x1 = mkTestResult (Some "fail") None
      else x1 = x2
  | None => x1 = x2
  end.

Definition matrix_rel (b : string) (testrunners : dict Runner)
    (m1 m2 : dict (dict TestResult)) : Prop :=
  dict_rel (fun _ row1 row2 => dict_rel (cell_rel b testrunners) row1 row2)
    m1 m2.

(** Two matrices with the same rows and columns, the cells of each column
    related by [C]. *)
Definition matrix_rel_by (C : string -> TestResult -> TestResult -> Prop)
    (m1 m2 : dict (dict TestResult)) : Prop :=
  dict_rel (fun _ row1 row2 => dict_rel C row1 row2) m1 m2.

Definition result_rel {A} (R : A -> A -> Prop) (r1 r2 : result A) : Prop :=
  match r1, r2 with
  | Ok a1, Ok a2 => R a1 a2
  | Raise e1, Raise e2 => e1 = e2
  | _, _ => False
  end.

(** Two computations that, from the state [st], end in the same state with
    results related by [R] (or with the same exception). *)
Definition sim {A} (R : A -> A -> Prop) (m1 m2 : M A) (st : State) : Prop :=
  snd (m1 st) = snd (m2 st) /\ result_rel R (fst (m1 st)) (fst (m2 st)).

(** The two values the [try] statement can store. *)
Definition status_ok (x : TestResult) : Prop :=
  status x = Some "pass" \/ status x = Some "fail".

(** A finished row: one recorded cell per configured runner, in the order
    of the configuration. *)
Definition row_ok (testrunners : dict Runner) (row : dict TestResult) : Prop :=
  dict_keys row = dict_keys testrunners /\ Forall status_ok (dict_values row).

(** The writes of the rendering loops, in closed form. *)
Definition cell_chunks (c : string * TestResult) : list string :=
  [ "<td class='" +++ fmt (status (snd c)) +++ "'>";
    fmt (status (snd c));
    "</td>" ].

Definition row_chunks (r : string * dict TestResult) : list string :=
  ["<tr>"; "<td>" +++ fst r +++ "</td>"]
    ++ flat_map cell_chunks (snd r) ++ ["</tr>"].

Definition report_head : list string :=
  [ "<!doctype html>"; "<html>"; "<head>";
    "<title>" +++ report_title +++ "</title>";
    "<style>" +++ css +++ "</style>";
    "</head>"; "<body>";
    "<h1>" +++ report_title +++ "</h1>";
    "<table>"; "<thead>"; "<tr>"; "<th>Test</th>" ].

Definition report_chunks (testrunners : dict Runner)
    (testresults : dict (dict TestResult)) : list string :=
  report_head
    ++ flat_map (fun testcmd => ["<th>" +++ testcmd +++ "</th>"])
         (dict_keys testrunners)
    ++ ["</tr>"; "</thead>"]
    ++ flat_map row_chunks testresults
    ++ ["</table>"; "</body>" +++ nl; "</html>" +++ nl].

(** The label the report shows for the cell of [testmod] and [testcmd]. *)
Definition label (testresults : dict (dict TestResult))
    (testmod testcmd : string) : string :=
  match cell testresults testmod testcmd with
  | Some x => fmt (status x)
  | None => "None"
  end.

(** ** Further readings of a run *)

(** The exit status [run_test] accepts: the expected one, or zero when
    none is expected. *)
Definition exit_matches (expected : option Z) (rc : Z) : bool :=
  match expected with
  | Some e => (e =? rc)%Z
  | None => (rc =? 0)%Z
  end.

(** The runner calls of a log with the program path each was given,
    oldest first. *)
Definition calls (evs : list Event) : list (Runner * string) :=
  filter_map (fun e => match e with
                       | EvCall f testmod _ => Some (f, testmod)
                       | _ => None
                       end) evs.

(** The exception [e] and the state [st'] are what one of the statements
    of [run_tests] that stand outside its [try] gives when it raises:
    loading the document of one of the [tests], making a sandbox, or
    copying the fixtures into one. *)
Definition raised_outside_try (h : Host) (tests : list string)
    (e : Exception) (st' : State) : Prop :=
  (exists testmod st,
      In testmod tests
      /\ json_load h (Str.replace testmod ".wasm" ".json") st = (Raise e, st'))
  \/ (exists st, tempfile_mkdtemp h st = (Raise e, st'))
  \/ (exists testdir st,
         shutil_copytree "tests/fixtures" (os_path_join testdir "fixtures")
           true st = (Raise e, st')).

(** The exceptions that only a runner raises: a failed comparison, a
    failed exit status, the undefined name of [test_node], a document that
    is not an object. *)
Definition runner_exception (e : Exception) : bool :=
  match e with
  | AssertionError _ | CalledProcessError _ _ | NameError _
  | AttributeError _ => true
  | _ => false
  end.

(** The two cells [run_tests] can store. *)
Definition recorded (x : TestResult) : Prop :=
  x = mkTestResult (Some "pass") None \/ x = mkTestResult (Some "fail") None.

(** The command line of [run_deno_test]. *)
Definition deno_cmd (h : Host) (testmod : string) (testspec : TestSpec.t)
    : list string :=
  [ "deno"; "run"; "--quiet"; "--allow-all"; "--unstable";
    os_path_abspath h ".test.deno.ts"; json_dumps h testspec; testmod ].

(** What [run_test] requires of a completed process. *)
Definition accepted (testspec : TestSpec.t) (p : Process.t) : Prop :=
  differs (TestSpec.stdout testspec) (Process.stdout p) = false
  /\ exit_matches (TestSpec.exitCode testspec) (Process.returncode p) = true.

(** * Properties *)

(** ** The monad *)

Lemma raises_bind_l {A B} (m : M A) (k : A -> M B) :
  raises m -> raises (bind m k).
Proof.
  intros Hm st. destruct (Hm st) as (e & st' & E).
  exists e, st'. unfold bind. now rewrite E.
Qed.

Lemma raises_bind_r {A B} (m : M A) (k : A -> M B) :
  (forall a, raises (k a)) -> raises (bind m k).
Proof.
  intros Hk st. unfold bind.
  destruct (m st) as [[a | e] st'].
  - apply Hk.
  - now exists e, st'.
Qed.

Lemma raises_raise {A} (e : Exception) : raises (@raise A e).
Proof. intros st. now exists e, st. Qed.

(** ** Classification of one run *)

Section Classification.
Variable h : Host.

Lemma run_test_nonzero_raises testcmd testdir testspec :
  TestSpec.exitCode testspec = None ->
  (forall p, subprocess_run h testcmd testdir (TestSpec.stdin testspec) = Ok p ->
             Process.returncode p <> 0%Z) ->
  raises (run_test h testcmd testdir testspec).
Proof.
  intros Hexit Hrun st.
  unfold run_test, subprocess_run_in, bind, log, lift; simpl.
  destruct (subprocess_run h testcmd testdir (TestSpec.stdin testspec))
    as [p | e] eqn:E; [| eauto].
  specialize (Hrun p eq_refl).
  destruct (differs _ _); unfold raise, ret; [eauto |].
  rewrite Hexit. unfold check_returncode.
  destruct (Z.eqb_spec (Process.returncode p) 0); [contradiction |].
  unfold raise. eauto.
Qed.

Lemma try_test_of_raises test testmod testdir testspec testresult :
  raises (call h test (os_path_abspath h testmod) testdir testspec) ->
  forall st, fst (try_test h test testmod testdir testspec testresult st)
             = Ok (set_status testresult "fail").
Proof.
  intros Hr st. unfold try_test, try_except.
  pose proof (raises_bind_l _ (fun _ => ret (set_status testresult "pass")) Hr st)
    as (e & st' & E).
  now rewrite E.
Qed.

Lemma call_nonzero_raises test testmod testdir testspec :
  TestSpec.exitCode testspec = None ->
  (forall cmd p,
      subprocess_run h cmd testdir (TestSpec.stdin testspec) = Ok p ->
      Process.returncode p <> 0%Z) ->
  raises (call h test testmod testdir testspec).
Proof.
  intros Hexit Hrun.
  assert (Hrt : forall cmd, raises (run_test h cmd testdir testspec))
    by (intros cmd; apply run_test_nonzero_raises; eauto).
  unfold call. apply raises_bind_r; intros _.
  destruct test; cbv beta delta [run_deno_test test_node run_wasmer_test
                                  run_wasmtime_test] zeta.
  - apply raises_bind_r; intros _. apply Hrt.
  - apply raises_bind_r; intros _. apply raises_bind_l, raises_raise.
  - do 3 (apply raises_bind_r; intros ?). apply Hrt.
  - do 3 (apply raises_bind_r; intros ?). apply Hrt.
Qed.

End Classification.

(** C4.  When the specification has no [exitCode] and the process run in
    the cell's sandbox ends with a non-zero status, [run_test] raises
    whatever the command line, and the cell is recorded as ["fail"], never
    as ["pass"]. *)
Theorem absent_exitCode_nonzero_is_fail :
  forall (h : Host) (test : Runner) (testmod testdir : string)
         (testspec : TestSpec.t) (st : State),
    TestSpec.exitCode testspec = None ->
    (forall cmd p,
        subprocess_run h cmd testdir (TestSpec.stdin testspec) = Ok p ->
        Process.returncode p <> 0%Z) ->
    (forall cmd, exists e st',
        run_test h cmd testdir testspec st = (Raise e, st'))
    /\ fst (try_test h test testmod testdir testspec (mkTestResult None None) st)
       = Ok (mkTestResult (Some "fail") None).
Proof.
  intros h test testmod testdir testspec st Hexit Hrun. split.
  - intros cmd. apply run_test_nonzero_raises; eauto.
  - apply try_test_of_raises, call_nonzero_raises; auto.
Qed.

Lemma absent_exitCode_nonzero_is_fail_witness :
  fst (try_test (Example.host Example.failing) Fn_run_wasmtime_test
         "tests/b.wasm" "/tmp/tmp" Example.specB (mkTestResult None None)
         Example.st0)
  = Ok (mkTestResult (Some "fail") None).
Proof.
  apply (absent_exitCode_nonzero_is_fail (Example.host Example.failing)
           Fn_run_wasmtime_test "tests/b.wasm" "/tmp/tmp" Example.specB
           Example.st0).
  - reflexivity.
  - intros cmd p E. simpl in E. injection E as <-. simpl. lia.
Defined.

(** C1.  The specification [Example.specA] expects an empty stderr; the
    process prints [panic] on stderr, with the expected stdout and exit
    status.  [run_test] returns normally and the cell is recorded as
    ["pass"]: the second comparison of [run_test] tests stdout again. *)
Theorem run_test_never_compares_stderr :
  let h := Example.host Example.noisy in
  let cmd := ["wasmtime"; "run"; "/work/tests/a.wasm"] in
  TestSpec.stderr Example.specA = Some ""
  /\ fst (run_test h cmd "/tmp/tmp" Example.specA Example.st0)
     = Ok (Process.Build cmd 0 "ok" "panic")
  /\ fst (try_test h Fn_run_wasmtime_test "tests/a.wasm" "/tmp/tmp"
            Example.specA (mkTestResult None None) Example.st0)
     = Ok (mkTestResult (Some "pass") None).
Proof. vm_compute. repeat split. Qed.

(** ** Dictionaries *)

Section DictFacts.
Context {V : Type}.
Implicit Types (d : dict V) (k : string) (v : V).

Lemma dict_get_in d k v :
  dict_wf d -> In (k, v) d -> dict_get d k = Some v.
Proof.
  unfold dict_wf, dict_keys. induction d as [| [k' v'] d IH]; simpl.
  - intros _ [].
  - intros Hnd Hin. inversion Hnd as [| ? ? Hnotin Hnd']; subst.
    destruct (String.eqb_spec k' k) as [-> | Hne].
    + destruct Hin as [E | Hin]; [congruence |].
      exfalso. apply Hnotin. now apply (in_map fst) in Hin.
    + destruct Hin as [E | Hin]; [congruence | auto].
Qed.

Lemma dict_set_fresh d k v :
  ~ In k (dict_keys d) -> dict_set d k v = d ++ [(k, v)].
Proof.
  unfold dict_keys. induction d as [| [k' v'] d IH]; simpl; [reflexivity |].
  intros Hn. destruct (String.eqb_spec k' k) as [-> | Hne].
  - exfalso. now apply Hn; left.
  - f_equal. apply IH. intros Hin. apply Hn. now right.
Qed.

Lemma dict_set_last d k v v' :
  ~ In k (dict_keys d) -> dict_set (d ++ [(k, v)]) k v' = d ++ [(k, v')].
Proof.
  unfold dict_keys. induction d as [| [k' w] d IH]; simpl.
  - intros _. now rewrite String.eqb_refl.
  - intros Hn. destruct (String.eqb_spec k' k) as [-> | Hne].
    + exfalso. now apply Hn; left.
    + f_equal. apply IH. intros Hin. apply Hn. now right.
Qed.

Lemma dict_get_last d k v :
  ~ In k (dict_keys d) -> dict_get (d ++ [(k, v)]) k = Some v.
Proof.
  unfold dict_keys. induction d as [| [k' w] d IH]; simpl.
  - intros _. now rewrite String.eqb_refl.
  - intros Hn. destruct (String.eqb_spec k' k) as [-> | Hne].
    + exfalso. now apply Hn; left.
    + apply IH. intros Hin. apply Hn. now right.
Qed.

Lemma dict_get_set_same d k v : dict_get (dict_set d k v) k = Some v.
Proof.
  induction d as [| [k' w] d IH]; simpl.
  - now rewrite String.eqb_refl.
  - destruct (String.eqb_spec k' k) as [-> | Hne]; simpl.
    + now rewrite String.eqb_refl.
    + destruct (String.eqb_spec k' k); [contradiction | exact IH].
Qed.

Lemma dict_get_set_other d k k' v :
  k <> k' -> dict_get (dict_set d k v) k' = dict_get d k'.
Proof.
  intros Hne. induction d as [| [k0 w] d IH]; simpl.
  - destruct (String.eqb_spec k k'); [contradiction | reflexivity].
  - destruct (String.eqb_spec k0 k) as [-> | Hne0]; simpl.
    + destruct (String.eqb_spec k k'); [contradiction | reflexivity].
    + now rewrite IH.
Qed.
End DictFacts.

(** ** Loops *)

Lemma for_each_app {A B} (l1 l2 : list A) (body : A -> B -> M B) acc st :
  for_each (l1 ++ l2) body acc st
  = bind (for_each l1 body acc) (for_each l2 body) st.
Proof.
  revert acc st. induction l1 as [| x l1 IH]; intros acc st; simpl.
  - reflexivity.
  - unfold bind. destruct (body x acc st) as [[acc' | e] st'].
    + rewrite IH. reflexivity.
    + reflexivity.
Qed.

Lemma for_each_ext_in {A B} (l : list A) (f g : A -> B -> M B) :
  (forall x acc st, In x l -> f x acc st = g x acc st) ->
  forall acc st, for_each l f acc st = for_each l g acc st.
Proof.
  induction l as [| x l IH]; intros Hfg acc st; simpl; [reflexivity |].
  unfold bind. rewrite (Hfg x acc st) by now left.
  destruct (g x acc st) as [[acc' | e] st']; [| reflexivity].
  apply IH. intros; apply Hfg; now right.
Qed.

(** A loop whose body appends [g x] to the accumulator. *)
Lemma for_each_append {A C} (l : list A) (g : A -> list C) acc st :
  for_each l (fun x acc => ret (acc ++ g x)) acc st
  = (Ok (acc ++ flat_map g l), st).
Proof.
  revert acc. induction l as [| x l IH]; intros acc; simpl.
  - now rewrite app_nil_r.
  - unfold bind, ret at 1. rewrite IH. now rewrite app_assoc.
Qed.

(** Iterating over the keys of a dict and indexing it visits its items. *)
Lemma for_each_items {V B} (d : dict V) (body : string -> V -> B -> M B) :
  dict_wf d ->
  forall acc st,
    for_each (dict_keys d) (fun k acc => v <- getitem d k ;; body k v acc) acc st
    = for_each d (fun kv acc => body (fst kv) (snd kv) acc) acc st.
Proof.
  intros Hwf.
  assert (G : forall l, (forall k v, In (k, v) l -> dict_get d k = Some v) ->
                        forall acc st,
                          for_each (map fst l)
                            (fun k acc => v <- getitem d k ;; body k v acc) acc st
                          = for_each l (fun kv acc => body (fst kv) (snd kv) acc)
                              acc st).
  { induction l as [| [k v] l IH]; intros Hl acc st; simpl; [reflexivity |].
    unfold bind at 1 2, getitem. rewrite (Hl k v) by now left.
    unfold ret at 1. unfold bind at 2.
    destruct (body k v acc st) as [[acc' | e] st']; [| reflexivity].
    apply IH. intros; apply Hl; now right. }
  apply G. intros k v Hin. now apply dict_get_in.
Qed.

(** ** Command lines of the native runners *)

Section NativeCommand.
Variable h : Host.

Lemma flags_loop (flag sep : string) (d : dict string) acc st :
  dict_wf d ->
  for_each (dict_keys d)
    (fun key testcmd =>
       let testcmd := testcmd ++ [flag] in
       v <- getitem d key ;;
       ret (testcmd ++ [key +++ sep +++ v])) acc st
  = (Ok (acc ++ native_flags flag sep d), st).
Proof.
  intros Hwf. cbv zeta.
  rewrite (for_each_items d
             (fun k v acc => ret ((acc ++ [flag]) ++ [k +++ sep +++ v])) Hwf).
  unfold native_flags.
  rewrite <- (for_each_append d (fun kv => [flag; fst kv +++ sep +++ snd kv])).
  apply for_each_ext_in. intros [k v] a s _. simpl.
  now rewrite <- app_assoc.
Qed.

Lemma native_runner_cmd (binary testmod testdir : string) testspec st :
  let env := match TestSpec.env testspec with Some e => e | None => [] end in
  let preopens :=
    match TestSpec.preopens testspec with Some p => p | None => [] end in
  let args := match TestSpec.args testspec with Some a => a | None => [] end in
  dict_wf env -> dict_wf preopens ->
  native_runner h binary testmod testdir testspec st
  = run_test h (native_cmd binary testmod env preopens args) testdir testspec st.
Proof.
  intros env preopens args Henv Hpre. unfold native_runner. cbv zeta.
  fold env preopens args.
  unfold bind at 1. rewrite flags_loop by assumption.
  unfold bind at 1. rewrite flags_loop by assumption.
  cbv zeta. unfold bind at 1.
  rewrite (for_each_append args (fun arg => [arg])).
  f_equal. unfold native_cmd.
  assert (Hflat : flat_map (fun arg : string => [arg]) args = args).
  { clear. induction args as [| a l IH]; simpl; [reflexivity | now rewrite IH]. }
  rewrite Hflat.
  destruct args as [| a l]; simpl Nat.ltb; cbv iota;
    repeat (rewrite <- ?app_assoc; simpl); rewrite ?app_nil_r; reflexivity.
Qed.

End NativeCommand.

(** C6.  For a specification whose [env] and [preopens] are dicts, both
    native runners hand [run_test] the command vector: binary, [run], one
    [--env KEY=VALUE] pair per environment entry, one
    [--mapdir guest::host] pair per preopen, the program path, and then
    [--] followed by the arguments exactly when there are arguments. *)
Theorem native_runners_command_vector :
  forall (h : Host) (testmod testdir : string) (testspec : TestSpec.t)
         (st : State),
    let env := match TestSpec.env testspec with Some e => e | None => [] end in
    let preopens :=
      match TestSpec.preopens testspec with Some p => p | None => [] end in
    let args := match TestSpec.args testspec with Some a => a | None => [] end in
    dict_wf env -> dict_wf preopens ->
    run_wasmtime_test h testmod testdir testspec st
    = run_test h (native_cmd "wasmtime" testmod env preopens args)
        testdir testspec st
    /\ run_wasmer_test h testmod testdir testspec st
       = run_test h (native_cmd "wasmer" testmod env preopens args)
           testdir testspec st.
Proof.
  intros h testmod testdir testspec st env preopens args Henv Hpre.
  split.
  - exact (native_runner_cmd h "wasmtime" testmod testdir testspec st Henv Hpre).
  - exact (native_runner_cmd h "wasmer" testmod testdir testspec st Henv Hpre).
Qed.

Lemma native_runners_command_vector_witness :
  run_wasmtime_test (Example.host Example.quiet) "/work/tests/a.wasm"
    "/tmp/tmp" Example.specA Example.st0
  = run_test (Example.host Example.quiet)
      [ "wasmtime"; "run"; "--env"; "HOME=/";
        "--mapdir"; "/fixtures::fixtures";
        "/work/tests/a.wasm"; "--"; "--flag" ]
      "/tmp/tmp" Example.specA Example.st0
  /\ run_wasmer_test (Example.host Example.quiet) "/work/tests/a.wasm"
       "/tmp/tmp" Example.specA Example.st0
     = run_test (Example.host Example.quiet)
         [ "wasmer"; "run"; "--env"; "HOME=/";
           "--mapdir"; "/fixtures::fixtures";
           "/work/tests/a.wasm"; "--"; "--flag" ]
         "/tmp/tmp" Example.specA Example.st0.
Proof.
  apply (native_runners_command_vector (Example.host Example.quiet)
           "/work/tests/a.wasm" "/tmp/tmp" Example.specA Example.st0).
  - unfold dict_wf; simpl. constructor; [intros [] | constructor].
  - unfold dict_wf; simpl. constructor; [intros [] | constructor].
Defined.

(** ** The deno bootstrap *)

Lemma js_prop_of_spec (s : TestSpec.t) :
  js_prop (js_of_spec s) "env" = Some (js_of_option js_of_dict (TestSpec.env s))
  /\ js_prop (js_of_spec s) "args"
     = Some (js_of_option (fun a => JsArray (map JsString a)) (TestSpec.args s))
  /\ js_prop (js_of_spec s) "preopens"
     = Some (js_of_option js_of_dict (TestSpec.preopens s)).
Proof.
  destruct s as [[e |] [a |] [p |] [i |] [o |] [r |] [x |]];
    repeat split; reflexivity.
Qed.

(** C7.  [run_deno_test] launches [deno run] with three flags, the
    bootstrap script, the serialized specification and the program path,
    so that the script sees the serialized specification as [Deno.args[0]]
    and the program path as [Deno.args[1]], and the options it builds for
    the guest carry [env] and [preopens] as declared.  The guest's
    arguments are the program path followed by the declared [args] only
    for a document that declares them: for a document without the key,
    [concat] appends [undefined] to the program path, where the native
    runners, on the same document, pass the program path alone. *)
Theorem deno_bootstrap_guest_arguments :
  forall (h : Host) (testmod testdir : string) (testspec : TestSpec.t)
         (st : State),
    JSON_parse h (json_dumps h testspec) = Some (js_of_spec testspec) ->
    Str.startswith (os_path_abspath h ".test.deno.ts") "-" = false ->
    let script := os_path_abspath h ".test.deno.ts" in
    let cmd := [ "deno"; "run"; "--quiet"; "--allow-all"; "--unstable";
                 script; json_dumps h testspec; testmod ] in
    let env := match TestSpec.env testspec with Some e => e | None => [] end in
    let preopens :=
      match TestSpec.preopens testspec with Some p => p | None => [] end in
    run_deno_test h testmod testdir testspec st
    = (write_file ".test.deno.ts" deno_script ;;;
       run_test h cmd testdir testspec) st
    /\ deno_cli cmd = Some (script, [json_dumps h testspec; testmod])
    /\ deno_bootstrap h [json_dumps h testspec; testmod]
       = Some (mkWasiOptions
                 (js_of_option js_of_dict (TestSpec.env testspec))
                 (JsString testmod
                    :: match TestSpec.args testspec with
                       | Some arguments => map JsString arguments
                       | None => [JsUndefined]
                       end)
                 (js_of_option js_of_dict (TestSpec.preopens testspec)))
    /\ (TestSpec.args testspec = None ->
        dict_wf env -> dict_wf preopens ->
        run_wasmtime_test h testmod testdir testspec st
        = run_test h (native_cmd "wasmtime" testmod env preopens [])
            testdir testspec st).
Proof.
  intros h testmod testdir testspec st Hparse Hscript script cmd env preopens.
  split; [reflexivity |]. split; [| split].
  - unfold cmd, deno_cli. simpl. fold script. unfold script. now rewrite Hscript.
  - unfold deno_bootstrap. rewrite Hparse.
    destruct (js_prop_of_spec testspec) as (-> & -> & ->).
    now destruct (TestSpec.args testspec).
  - intros Hargs Henv Hpre.
    pose proof (native_runner_cmd h "wasmtime" testmod testdir testspec st
                  Henv Hpre) as E.
    rewrite Hargs in E. exact E.
Qed.

Lemma deno_bootstrap_guest_arguments_witness :
  deno_cli [ "deno"; "run"; "--quiet"; "--allow-all"; "--unstable";
             "/work/.test.deno.ts"; "B"; "/work/tests/b.wasm" ]
  = Some ("/work/.test.deno.ts", ["B"; "/work/tests/b.wasm"])
  /\ deno_bootstrap (Example.host Example.quiet) ["B"; "/work/tests/b.wasm"]
     = Some (mkWasiOptions JsUndefined
               [JsString "/work/tests/b.wasm"; JsUndefined] JsUndefined)
  /\ run_wasmtime_test (Example.host Example.quiet) "/work/tests/b.wasm"
       "/tmp/tmp" Example.specB Example.st0
     = run_test (Example.host Example.quiet)
         ["wasmtime"; "run"; "/work/tests/b.wasm"]
         "/tmp/tmp" Example.specB Example.st0.
Proof.
  destruct (deno_bootstrap_guest_arguments (Example.host Example.quiet)
              "/work/tests/b.wasm" "/tmp/tmp" Example.specB Example.st0
              eq_refl eq_refl) as (_ & Hcli & Hboot & Hnative).
  split; [exact Hcli |]. split; [exact Hboot |].
  apply Hnative; [reflexivity | constructor | constructor].
Defined.

(** ** Effects of the runners on the state *)

Lemma filter_map_app {A B} (f : A -> option B) (l1 l2 : list A) :
  filter_map f (l1 ++ l2) = filter_map f l1 ++ filter_map f l2.
Proof.
  induction l1 as [| x l1 IH]; simpl; [reflexivity |].
  destruct (f x); simpl; now rewrite IH.
Qed.

Lemma dirs_stable_refl f : dirs_stable f f.
Proof. repeat split; auto. Qed.


Lemma dirs_stable_set f p n :
  (forall mode entries, dict_get f p <> Some (FsDir mode entries)) ->
  (forall target, dict_get f p <> Some (FsLink target)) ->
  dirs_stable f (dict_set f p n).
Proof.
  intros Hp Hl. repeat split.
  - intros q m e Hq. destruct (String.eqb_spec p q) as [-> | Hne].
    + now apply Hp in Hq.
    + now rewrite dict_get_set_other.
  - intros q t Hq. destruct (String.eqb_spec p q) as [-> | Hne].
    + now apply Hl in Hq.
    + now rewrite dict_get_set_other.
  - intros q Hq. destruct (String.eqb_spec p q) as [-> | Hne].
    + now rewrite dict_get_set_same in Hq.
    + now rewrite dict_get_set_other in Hq.
Qed.

(** ** Following links *)

Lemma walk_AtFile f n p q c :
  walk f n p = AtFile q c -> dict_get f q = Some (FsFile c).
Proof.
  revert p. induction n as [| n IH]; intros p; simpl;
    destruct (dict_get f p) as [[c' | t | m e] |] eqn:E;
    try discriminate; try apply IH; intros H; injection H as <- <-; exact E.
Qed.

Lemma walk_AtDir f n p q m e :
  walk f n p = AtDir q m e -> dict_get f q = Some (FsDir m e).
Proof.
  revert p. induction n as [| n IH]; intros p; simpl;
    destruct (dict_get f p) as [[c' | t | m' e'] |] eqn:E;
    try discriminate; try apply IH; intros H; injection H as <- <- <-;
    exact E.
Qed.

Lemma walk_AtNothing f n p q :
  walk f n p = AtNothing q -> dict_get f q = None.
Proof.
  revert p. induction n as [| n IH]; intros p; simpl;
    destruct (dict_get f p) as [[c' | t | m' e'] |] eqn:E;
    try discriminate; try apply IH; intros H; injection H as <-; exact E.
Qed.

Lemma walk_missing f n p : dict_get f p = None -> walk f n p = AtNothing p.
Proof. intros E. destruct n; simpl; now rewrite E. Qed.

Lemma walk_dir f n p m e :
  dict_get f p = Some (FsDir m e) -> walk f n p = AtDir p m e.
Proof. intros E. destruct n; simpl; now rewrite E. Qed.

Lemma walk_file f n p c :
  dict_get f p = Some (FsFile c) -> walk f n p = AtFile p c.
Proof. intros E. destruct n; simpl; now rewrite E. Qed.

Lemma resolve_AtFile f p q c :
  resolve f p = AtFile q c -> dict_get f q = Some (FsFile c).
Proof. apply walk_AtFile. Qed.

Lemma resolve_AtDir f p q m e :
  resolve f p = AtDir q m e -> dict_get f q = Some (FsDir m e).
Proof. apply walk_AtDir. Qed.

Lemma resolve_AtNothing f p q :
  resolve f p = AtNothing q -> dict_get f q = None.
Proof. apply walk_AtNothing. Qed.

Lemma resolve_missing f p : dict_get f p = None -> resolve f p = AtNothing p.
Proof. apply walk_missing. Qed.

Lemma resolve_dir f p m e :
  dict_get f p = Some (FsDir m e) -> resolve f p = AtDir p m e.
Proof. apply walk_dir. Qed.

Lemma resolve_file f p c :
  dict_get f p = Some (FsFile c) -> resolve f p = AtFile p c.
Proof. apply walk_file. Qed.



Section Effects.
Variable h : Host.

Lemma run_test_state testcmd testdir (testspec : TestSpec.t) st :
  snd (run_test h testcmd testdir testspec st)
  = mkState (fs st)
      (events st ++ [EvSpawn testcmd testdir (TestSpec.stdin testspec)]).
Proof.
  unfold run_test, subprocess_run_in, bind, log, lift; simpl.
  destruct (subprocess_run h testcmd testdir (TestSpec.stdin testspec))
    as [p | e]; [| reflexivity].
  destruct (differs _ _); [reflexivity |].
  destruct (TestSpec.exitCode testspec) as [rc |].
  - now destruct (negb _).
  - unfold check_returncode. now destruct (_ =? _)%Z.
Qed.

Lemma run_test_other testcmd testdir v st :
  run_test h testcmd testdir (DocOther v) st = (Raise (AttributeError "get"), st).
Proof. reflexivity. Qed.

Lemma write_file_effect path content st :
  exists f', snd (write_file path content st) = mkState f' (events st)
             /\ dirs_stable (fs st) f'.
Proof.
  unfold write_file, bind, get_fs, put_fs, raise; simpl.
  destruct (resolve (fs st) path) as [q c | q m e | q |] eqn:E; simpl.
  - eexists; split; [reflexivity |]. apply resolve_AtFile in E.
    apply dirs_stable_set; intros; congruence.
  - exists (fs st). split; [now destruct st | apply dirs_stable_refl].
  - eexists; split; [reflexivity |]. apply resolve_AtNothing in E.
    apply dirs_stable_set; intros; congruence.
  - exists (fs st). split; [now destruct st | apply dirs_stable_refl].
Qed.

(** The three loops of a native runner leave the state alone and only
    append to the command vector. *)
Lemma flags_loop_shape (flag sep : string) (d : dict string) keys acc st :
  exists r,
    for_each keys
      (fun key testcmd =>
         let testcmd := testcmd ++ [flag] in
         v <- getitem d key ;;
         ret (testcmd ++ [key +++ sep +++ v])) acc st = (r, st)
    /\ forall c, r = Ok c -> exists rest, c = acc ++ rest.
Proof.
  revert acc. induction keys as [| k keys IH]; intros acc; simpl.
  - exists (Ok acc). split; [reflexivity |].
    intros c [= <-]. exists []. now rewrite app_nil_r.
  - unfold bind at 1, getitem at 1.
    destruct (dict_get d k) as [v |]; simpl.
    + unfold bind at 1, ret at 1.
      destruct (IH ((acc ++ [flag]) ++ [k +++ sep +++ v])) as (r & E & Hr).
      exists r. split; [exact E |].
      intros c Hc. destruct (Hr c Hc) as (rest & ->).
      eexists. now rewrite <- !app_assoc.
    + exists (Raise (KeyError k)). split; [reflexivity | discriminate].
Qed.

Lemma native_runner_shape binary testmod testdir testspec st :
  (exists e, forall h', native_runner h' binary testmod testdir testspec st
                        = (Raise e, st))
  \/ exists cmd,
       hd "" cmd = binary
       /\ forall h', native_runner h' binary testmod testdir testspec st
                     = run_test h' cmd testdir testspec st.
Proof.
  unfold native_runner. cbv zeta.
  set (env := match TestSpec.env testspec with Some e => e | None => [] end).
  set (pre := match TestSpec.preopens testspec with Some p => p | None => [] end).
  set (args := match TestSpec.args testspec with Some a => a | None => [] end).
  destruct (flags_loop_shape "--env" "=" env (dict_keys env) [binary; "run"] st)
    as (r1 & E1 & H1). cbv zeta in E1.
  destruct r1 as [c1 | e1].
  2: { left. exists e1. intros h'. unfold bind at 1. now rewrite E1. }
  destruct (H1 c1 eq_refl) as (rest1 & ->).
  destruct (flags_loop_shape "--mapdir" "::" pre (dict_keys pre)
              ([binary; "run"] ++ rest1) st) as (r2 & E2 & H2).
  cbv zeta in E2.
  destruct r2 as [c2 | e2].
  2: { left. exists e2. intros h'. unfold bind at 1. rewrite E1.
       unfold bind at 1. now rewrite E2. }
  destruct (H2 c2 eq_refl) as (rest2 & ->).
  right. eexists. split.
  2: { intros h'. unfold bind at 1. rewrite E1. unfold bind at 1. rewrite E2.
       unfold bind at 1. rewrite (for_each_append args (fun arg => [arg])).
       reflexivity. }
  destruct (0 <? List.length args)%nat; reflexivity.
Qed.

(** What a runner call does to the state: it logs the call, possibly one
    launch of its engine in its sandbox, and never touches a directory
    of the store. *)
Lemma call_effect test testmod testdir testspec st :
  exists f' tail,
    snd (call h test testmod testdir testspec st)
    = mkState f' (events st ++ EvCall test testmod testdir :: tail)
    /\ dirs_stable (fs st) f'
    /\ Forall (fun e => exists cmd stdin,
                   e = EvSpawn cmd testdir stdin /\ hd "" cmd = engine test)
         tail.
Proof.
  unfold call. unfold bind at 1, log at 1.
  set (st1 := mkState (fs st) (events st ++ [EvCall test testmod testdir])).
  destruct testspec as [testspec | v].
  2: { assert (Hscript : forall script text (k : M Process.t),
                 (forall s, exists r, k s = (r, s)) ->
                 exists f' tail,
                   snd (bind (write_file script text) (fun _ => k) st1)
                   = mkState f'
                       (events st ++ EvCall test testmod testdir :: tail)
                   /\ dirs_stable (fs st) f'
                   /\ Forall (fun e => exists cmd stdin,
                                  e = EvSpawn cmd testdir stdin
                                  /\ hd "" cmd = engine test) tail).
       { intros script text k Hk. unfold bind.
         destruct (write_file_effect script text st1) as (f' & Est & Hst).
         destruct (write_file script text st1) as [[[] | e] st2];
           simpl in Est; subst st2; exists f', []; simpl.
         - destruct (Hk (mkState f' (events st ++ [EvCall test testmod testdir])))
             as (r & ->).
           simpl. split; [reflexivity | split; [exact Hst | constructor]].
         - split; [reflexivity | split; [exact Hst | constructor]]. }
       destruct test.
       - apply Hscript. intros s. eexists. reflexivity.
       - apply Hscript. intros s. eexists. reflexivity.
       - exists (fs st), []. simpl.
         split; [reflexivity | split; [apply dirs_stable_refl | constructor]].
       - exists (fs st), []. simpl.
         split; [reflexivity | split; [apply dirs_stable_refl | constructor]]. }
  assert (Hnative : forall binary, engine test = binary ->
            exists f' tail,
              snd (native_runner h binary testmod testdir testspec st1)
              = mkState f' (events st ++ EvCall test testmod testdir :: tail)
              /\ dirs_stable (fs st) f'
              /\ Forall (fun e => exists cmd stdin,
                             e = EvSpawn cmd testdir stdin
                             /\ hd "" cmd = engine test) tail).
  { intros binary Hb.
    destruct (native_runner_shape binary testmod testdir testspec st1)
      as [(e & E) | (cmd & Hhd & E)].
    - rewrite (E h). exists (fs st), []. simpl.
      split; [reflexivity | split; [apply dirs_stable_refl | constructor]].
    - rewrite E, run_test_state. simpl.
      exists (fs st), [EvSpawn cmd testdir (TestSpec.stdin testspec)].
      rewrite <- app_assoc. simpl.
      split; [reflexivity | split; [apply dirs_stable_refl |]].
      constructor; [| constructor]. exists cmd, (TestSpec.stdin testspec).
      now rewrite Hb. }
  destruct test.
  - (* run_deno_test *)
    unfold run_deno_test. cbv zeta. unfold bind at 1.
    destruct (write_file_effect ".test.deno.ts" deno_script st1)
      as (f' & Est & Hst).
    destruct (write_file ".test.deno.ts" deno_script st1) as [[[] | e] st2];
      simpl in Est; subst st2.
    + rewrite run_test_state. simpl.
      eexists f', [_]. rewrite <- app_assoc. simpl.
      split; [reflexivity | split; [exact Hst |]].
      constructor; [| constructor]. eexists _, _. split; reflexivity.
    + exists f', []. simpl.
      split; [reflexivity | split; [exact Hst | constructor]].
  - (* test_node *)
    unfold test_node. cbv zeta. unfold bind at 1.
    destruct (write_file_effect ".node.js" node_script st1)
      as (f' & Est & Hst).
    destruct (write_file ".node.js" node_script st1) as [[[] | e] st2];
      simpl in Est; subst st2.
    + exists f', []. simpl.
      split; [reflexivity | split; [exact Hst | constructor]].
    + exists f', []. simpl.
      split; [reflexivity | split; [exact Hst | constructor]].
  - exact (Hnative "wasmer" eq_refl).
  - exact (Hnative "wasmtime" eq_refl).
Qed.

(** The [try] statement always completes, with ["pass"] or ["fail"], and
    its effect on the state is that of the call. *)
Lemma try_test_result test testmod testdir testspec testresult st :
  exists s,
    try_test h test testmod testdir testspec testresult st
    = (Ok (set_status testresult s),
       snd (call h test (os_path_abspath h testmod) testdir testspec st))
    /\ (s = "pass" \/ s = "fail")
    /\ (s = "pass" <->
        exists p, fst (call h test (os_path_abspath h testmod) testdir
                         testspec st) = Ok p).
Proof.
  unfold try_test, try_except, bind, ret.
  destruct (call h test (os_path_abspath h testmod) testdir testspec st)
    as [[p | e] st']; simpl.
  - exists "pass". repeat split; eauto.
  - exists "fail". repeat split; auto.
    + discriminate.
    + intros (p & Hp). discriminate.
Qed.

End Effects.

(** ** The run invariant *)

Lemma copy_node_true follow : forall n, copy_node true follow n = n.
Proof.
  fix IH 1. intros [c | t | mode entries]; simpl; try reflexivity.
  f_equal. induction entries as [| [name child] l IHl]; [reflexivity |].
  now rewrite IH, IHl.
Qed.

Lemma dict_get_in_values {V} (d : dict V) k v :
  dict_get d k = Some v -> In v (dict_values d).
Proof.
  unfold dict_values. induction d as [| [k' v'] d IH]; simpl; [discriminate |].
  destruct (k' =? k); [intros [= ->]; now left | right; auto].
Qed.

Lemma sandboxes_app l1 l2 : sandboxes (l1 ++ l2) = sandboxes l1 ++ sandboxes l2.
Proof. apply filter_map_app. Qed.


Section RunInvariant.
Variable testrunners : dict Runner.
Variable st0 : State.




End RunInvariant.


Section RunPreserves.
Variable h : Host.
Variable testrunners : dict Runner.
Variable st0 : State.

Lemma json_load_state path st : snd (json_load h path st) = st.
Proof.
  unfold json_load, read_file, bind, get_fs; simpl.
  destruct (resolve (fs st) path) as [q c | q m e | q |]; try reflexivity.
  unfold ret. destruct (decode h c) as [text |]; [| reflexivity].
  now destruct (json_loads h text).
Qed.

Lemma getitem_state {V} (d : dict V) k st :
  getitem d k st
  = (match dict_get d k with
     | Some v => Ok v
     | None => Raise (KeyError k)
     end, st).
Proof. unfold getitem. now destruct (dict_get d k). Qed.

Lemma mkdtemp_state st :
  let name := mkdtemp_name h (dict_keys (fs st)) in
  tempfile_mkdtemp h st
  = match dict_get (fs st) name with
    | Some _ => (Raise (FileExistsError name), st)
    | None =>
        (Ok name,
         mkState (dict_set (fs st) name (FsDir 448 []))
           (events st ++ [EvMkdtemp name]))
    end.
Proof.
  intros name. unfold tempfile_mkdtemp, bind, get_fs. fold name.
  now destruct (dict_get (fs st) name).
Qed.

Lemma copytree_state src dst st :
  shutil_copytree src dst true st
  = match resolve (fs st) src with
    | AtDir _ mode entries =>
        match dict_get (fs st) dst with
        | Some _ => (Raise (FileExistsError dst), st)
        | None =>
            (Ok tt,
             mkState (dict_set (fs st) dst (FsDir mode entries))
               (events st ++ [EvCopytree src dst true]))
        end
    | AtFile _ _ => (Raise (NotADirectoryError src), st)
    | AtNothing _ => (Raise (FileNotFoundError src), st)
    | TooManyLinks => (Raise (OSError "ELOOP" src), st)
    end.
Proof.
  unfold shutil_copytree, bind, get_fs.
  destruct (resolve (fs st) src) as [q c | q mode entries | q |];
    try reflexivity.
  destruct (dict_get (fs st) dst); [reflexivity |].
  rewrite (copy_node_true _ (FsDir mode entries)). reflexivity.
Qed.




End RunPreserves.




(** The same where [tests/fixtures] is itself a symbolic link to the tree:
    the sandbox holds the tree, with its inner links still links. *)
Lemma linked_fixtures_are_copied :
  let st := snd (run_tests (Example.host Example.quiet) ["tests/b.wasm"]
                   Example.only_wasmtime Example.linked_st0) in
  call_dirs (events st) = ["/tmp/tmpxxx"]
  /\ sandboxes (events st) = ["/tmp/tmpxxx"]
  /\ resolve (fs st) "tests/fixtures"
     = AtDir "shared/fixtures" 493
         [ ("hello.txt", FsFile "hello");
           ("link", FsLink "hello.txt");
           ("sub", FsDir 493 [("up", FsLink "..")]) ]
  /\ dict_get (fs st) "/tmp/tmpxxx/fixtures" = Some Example.fixtures.
Proof. vm_compute. repeat split. Qed.


(** ** A host without one engine *)

Section DictRel.
Context {V : Type} (R : string -> V -> V -> Prop).

Lemma dict_rel_get d1 d2 k :
  dict_rel R d1 d2 ->
  match dict_get d1 k, dict_get d2 k with
  | Some x, Some y => R k x y
  | None, None => True
  | _, _ => False
  end.
Proof.
  induction 1 as [| [k1 v1] [k2 v2] l1 l2 [Hk Hv] Hl IH]; simpl in *.
  - exact I.
  - subst k2. destruct (String.eqb_spec k1 k) as [-> | Hne].
    + exact Hv.
    + exact IH.
Qed.

Lemma dict_rel_set d1 d2 k v1 v2 :
  dict_rel R d1 d2 -> R k v1 v2 ->
  dict_rel R (dict_set d1 k v1) (dict_set d2 k v2).
Proof.
  intros Hd Hv.
  induction Hd as [| [k1 w1] [k2 w2] l1 l2 [Hk Hw] Hl IH]; simpl in *.
  - constructor; [split; auto | constructor].
  - subst k2. destruct (String.eqb_spec k1 k) as [-> | Hne].
    + constructor; [split; auto | exact Hl].
    + constructor; [split; auto | exact IH].
Qed.
End DictRel.

Lemma sim_refl {A} (m : M A) st : sim eq m m st.
Proof.
  unfold sim. split; [reflexivity |].
  now destruct (fst (m st)).
Qed.

(** The continuations are compared from the state the first computations
    reach, for the values they return. *)
Lemma sim_bind {A B} (RA : A -> A -> Prop) (RB : B -> B -> Prop)
    (m1 m2 : M A) (k1 k2 : A -> M B) st :
  sim RA m1 m2 st ->
  (forall a1 a2 st', RA a1 a2 -> m2 st = (Ok a2, st') ->
                     sim RB (k1 a1) (k2 a2) st') ->
  sim RB (bind m1 k1) (bind m2 k2) st.
Proof.
  unfold sim, bind. intros [Hs Hr] Hk.
  destruct (m1 st) as [[a1 | e1] st1], (m2 st) as [[a2 | e2] st2];
    simpl in *; subst; try contradiction.
  - now apply Hk.
  - now split.
Qed.

(** *** The same run with other engines *)

Section Engines.
Variable h : Host.
Variable engines : list string -> string -> option string -> result Process.t.

Lemma run_test_engines_state testcmd testdir testspec st :
  snd (run_test (with_engines engines h) testcmd testdir testspec st)
  = snd (run_test h testcmd testdir testspec st).
Proof.
  destruct testspec as [testspec | v];
    [now rewrite !run_test_state | reflexivity].
Qed.

Lemma runner_engines_state test testmod testdir testspec st :
  let runner := fun h' : Host =>
    match test with
    | Fn_run_deno_test => run_deno_test h' testmod testdir testspec
    | Fn_test_node => test_node h' testmod testdir testspec
    | Fn_run_wasmer_test => run_wasmer_test h' testmod testdir testspec
    | Fn_run_wasmtime_test => run_wasmtime_test h' testmod testdir testspec
    end in
  snd (runner (with_engines engines h) st) = snd (runner h st).
Proof.
  assert (Hnative : forall binary (spec : TestSpec.t),
    snd (native_runner (with_engines engines h) binary testmod testdir spec st)
    = snd (native_runner h binary testmod testdir spec st)).
  { intros binary spec.
    destruct (native_runner_shape binary testmod testdir spec st)
      as [(e & E) | (cmd & Hhd & E)]; rewrite !E; [reflexivity |].
    apply run_test_engines_state. }
  destruct test; cbv zeta.
  - unfold run_deno_test. cbv zeta. unfold bind.
    destruct (write_file ".test.deno.ts" deno_script st) as [[[] | e] st2];
      [| reflexivity].
    exact (run_test_engines_state
             [ "deno"; "run"; "--quiet"; "--allow-all"; "--unstable";
               os_path_abspath h ".test.deno.ts"; json_dumps h testspec;
               testmod ] testdir testspec st2).
  - reflexivity.
  - destruct testspec as [spec | v];
      [exact (Hnative "wasmer" spec) | reflexivity].
  - destruct testspec as [spec | v];
      [exact (Hnative "wasmtime" spec) | reflexivity].
Qed.

Lemma call_engines_state test testmod testdir testspec st :
  snd (call (with_engines engines h) test testmod testdir testspec st)
  = snd (call h test testmod testdir testspec st).
Proof.
  exact (runner_engines_state test testmod testdir testspec
           (mkState (fs st) (events st ++ [EvCall test testmod testdir]))).
Qed.

(** Whatever the engines do, the [try] statement completes and leaves the
    same state. *)
Lemma try_test_engines test testmod testdir testspec st :
  sim (fun _ _ => True)
    (try_test (with_engines engines h) test testmod testdir testspec
       (mkTestResult None None))
    (try_test h test testmod testdir testspec (mkTestResult None None)) st.
Proof.
  destruct (try_test_result (with_engines engines h) test testmod testdir
              testspec (mkTestResult None None) st) as (s1 & E1 & _).
  destruct (try_test_result h test testmod testdir testspec
              (mkTestResult None None) st) as (s2 & E2 & _).
  change (os_path_abspath (with_engines engines h) testmod)
    with (os_path_abspath h testmod) in *.
  unfold sim. rewrite E1, E2. simpl. split; [| exact I].
  apply call_engines_state.
Qed.

Variable testrunners : dict Runner.
Variable C : string -> TestResult -> TestResult -> Prop.
Hypothesis Htry : forall test testmod testdir testspec testcmd st,
  dict_get testrunners testcmd = Some test ->
  sim (C testcmd)
    (try_test (with_engines engines h) test testmod testdir testspec
       (mkTestResult None None))
    (try_test h test testmod testdir testspec (mkTestResult None None)) st.

Lemma run_cell_engines testmod testspec testcmd res1 res2 st :
  matrix_rel_by C res1 res2 ->
  sim (matrix_rel_by C)
    (run_cell (with_engines engines h) testrunners testmod testspec testcmd
       res1)
    (run_cell h testrunners testmod testspec testcmd res2) st.
Proof.
  intros Hrel. unfold run_cell.
  apply (sim_bind eq); [apply sim_refl |].
  intros test ? st1 <- Etest.
  rewrite getitem_state in Etest.
  destruct (dict_get testrunners testcmd) as [test' |] eqn:Eget;
    [| discriminate].
  injection Etest as ->.
  apply (sim_bind eq); [exact (sim_refl (tempfile_mkdtemp h) st1) |].
  intros testdir ? st2 <- _.
  apply (sim_bind eq); [apply sim_refl |].
  intros [] ? st3 _ _.
  apply (sim_bind (C testcmd)); [now apply Htry |].
  intros x1 x2 st4 Hx _.
  apply (sim_bind (dict_rel C)).
  - unfold sim. rewrite !getitem_state. simpl. split; [reflexivity |].
    pose proof (dict_rel_get _ res1 res2 testmod Hrel) as Hrow.
    destruct (dict_get res1 testmod), (dict_get res2 testmod);
      simpl; auto; contradiction.
  - intros row1 row2 st5 Hrow _. unfold sim, ret. simpl.
    split; [reflexivity |].
    apply (dict_rel_set _ res1 res2 testmod); [exact Hrel |].
    now apply dict_rel_set.
Qed.

Lemma for_each_engines {A} (l : list A)
    (body1 body2 : A -> Matrix -> M Matrix) :
  (forall x res1 res2 st,
      matrix_rel_by C res1 res2 ->
      sim (matrix_rel_by C) (body1 x res1) (body2 x res2) st) ->
  forall res1 res2 st,
    matrix_rel_by C res1 res2 ->
    sim (matrix_rel_by C) (for_each l body1 res1) (for_each l body2 res2) st.
Proof.
  intros Hbody. induction l as [| x l IH]; intros res1 res2 st Hrel; simpl.
  - now split.
  - apply (sim_bind (matrix_rel_by C)); [now apply Hbody |].
    intros m1 m2 st' Hm _. now apply IH.
Qed.

Lemma run_tests_engines tests st :
  sim (matrix_rel_by C)
    (run_tests (with_engines engines h) tests testrunners)
    (run_tests h tests testrunners) st.
Proof.
  unfold run_tests. apply for_each_engines; [| constructor].
  intros testmod res1 res2 st' Hrel. unfold run_row. cbv zeta.
  apply (sim_bind eq);
    [exact (sim_refl (json_load h (Str.replace testmod ".wasm" ".json")) st') |].
  intros testspec ? st'' <- _.
  apply for_each_engines.
  - intros. now apply run_cell_engines.
  - apply dict_rel_set; [exact Hrel | constructor].
Qed.

End Engines.

(** *** One engine taken away *)

Section Uninstall.
Variable h : Host.
Variable b : string.

Lemma run_test_uninstall testcmd testdir testspec st :
  snd (run_test (uninstall b h) testcmd testdir testspec st)
  = snd (run_test h testcmd testdir testspec st)
  /\ (hd "" testcmd <> b ->
      run_test (uninstall b h) testcmd testdir testspec st
      = run_test h testcmd testdir testspec st)
  /\ (hd "" testcmd = b ->
      exists e, fst (run_test (uninstall b h) testcmd testdir testspec st)
                = Raise e).
Proof.
  destruct testspec as [testspec | v].
  2: { repeat split; auto. intros _. simpl. eexists; reflexivity. }
  split; [now rewrite !run_test_state |]. split.
  - intros Hne. unfold run_test, subprocess_run_in, bind, log, lift; simpl.
    apply String.eqb_neq in Hne. now rewrite Hne.
  - intros He. unfold run_test, subprocess_run_in, bind, log, lift; simpl.
    apply String.eqb_eq in He. rewrite He. simpl. eexists; reflexivity.
Qed.

Lemma runner_uninstall test testmod testdir testspec st :
  let run := fun h' : Host =>
    match test with
    | Fn_run_deno_test => run_deno_test h' testmod testdir testspec
    | Fn_test_node => test_node h' testmod testdir testspec
    | Fn_run_wasmer_test => run_wasmer_test h' testmod testdir testspec
    | Fn_run_wasmtime_test => run_wasmtime_test h' testmod testdir testspec
    end in
  snd (run (uninstall b h) st) = snd (run h st)
  /\ (engine test <> b -> run (uninstall b h) st = run h st)
  /\ (engine test = b -> exists e, fst (run (uninstall b h) st) = Raise e).
Proof.
  assert (Hnative : forall binary (spec : TestSpec.t), engine test = binary ->
    snd (native_runner (uninstall b h) binary testmod testdir spec st)
    = snd (native_runner h binary testmod testdir spec st)
    /\ (engine test <> b ->
        native_runner (uninstall b h) binary testmod testdir spec st
        = native_runner h binary testmod testdir spec st)
    /\ (engine test = b ->
        exists e,
          fst (native_runner (uninstall b h) binary testmod testdir spec st)
          = Raise e)).
  { intros binary spec Hbin.
    destruct (native_runner_shape binary testmod testdir spec st)
      as [(e & E) | (cmd & Hhd & E)].
    - rewrite !E. repeat split; auto. intros _. simpl. eexists; reflexivity.
    - rewrite !E.
      destruct (run_test_uninstall cmd testdir spec st) as (Hs & Hn & Hb).
      rewrite Hhd, <- Hbin in *. auto. }
  destruct test; cbv zeta.
  - (* run_deno_test *)
    unfold run_deno_test. cbv zeta. unfold bind.
    destruct (write_file ".test.deno.ts" deno_script st) as [[[] | e] st2].
    + exact (run_test_uninstall
               [ "deno"; "run"; "--quiet"; "--allow-all"; "--unstable";
                 os_path_abspath h ".test.deno.ts"; json_dumps h testspec;
                 testmod ] testdir testspec st2).
    + repeat split; auto. intros _. simpl. eexists; reflexivity.
  - (* test_node *)
    unfold test_node. cbv zeta. unfold bind.
    destruct (write_file ".node.js" node_script st) as [[[] | e] st2];
      (repeat split; auto; intros _; simpl; eexists; reflexivity).
  - destruct testspec as [spec | v]; [exact (Hnative "wasmer" spec eq_refl) |].
    repeat split; auto. intros _. simpl. eexists; reflexivity.
  - destruct testspec as [spec | v];
      [exact (Hnative "wasmtime" spec eq_refl) |].
    repeat split; auto. intros _. simpl. eexists; reflexivity.
Qed.

Lemma call_uninstall test testmod testdir testspec st :
  snd (call (uninstall b h) test testmod testdir testspec st)
  = snd (call h test testmod testdir testspec st)
  /\ (engine test <> b ->
      call (uninstall b h) test testmod testdir testspec st
      = call h test testmod testdir testspec st)
  /\ (engine test = b ->
      exists e, fst (call (uninstall b h) test testmod testdir testspec st)
                = Raise e).
Proof.
  exact (runner_uninstall test testmod testdir testspec
           (mkState (fs st) (events st ++ [EvCall test testmod testdir]))).
Qed.

Variable testrunners : dict Runner.

Lemma try_test_uninstall test testmod testdir testspec testcmd st :
  dict_get testrunners testcmd = Some test ->
  sim (cell_rel b testrunners testcmd)
    (try_test (uninstall b h) test testmod testdir testspec
       (mkTestResult None None))
    (try_test h test testmod testdir testspec (mkTestResult None None)) st.
Proof.
  intros Etest.
  destruct (try_test_result (uninstall b h) test testmod testdir testspec
              (mkTestResult None None) st) as (s1 & E1 & Hs1 & Hp1).
  destruct (try_test_result h test testmod testdir testspec
              (mkTestResult None None) st) as (s2 & E2 & Hs2 & Hp2).
  change (os_path_abspath (uninstall b h) testmod)
    with (os_path_abspath h testmod) in *.
  destruct (call_uninstall test (os_path_abspath h testmod) testdir testspec st)
    as (Hst & Hne & Heq).
  unfold sim. rewrite E1, E2. simpl. split; [exact Hst |].
  unfold cell_rel. rewrite Etest.
  destruct (String.eqb_spec (engine test) b) as [Hb | Hb].
  - destruct (Heq Hb) as (e & He).
    destruct Hs1 as [-> | ->]; [| reflexivity].
    destruct (proj1 Hp1 eq_refl) as (p & Hp). congruence.
  - rewrite (Hne Hb) in Hp1.
    destruct Hs1 as [-> | ->], Hs2 as [-> | ->]; try reflexivity.
    + exfalso. apply proj1 in Hp1. apply proj2 in Hp2.
      specialize (Hp2 (Hp1 eq_refl)). discriminate.
    + exfalso. apply proj2 in Hp1. apply proj1 in Hp2.
      specialize (Hp1 (Hp2 eq_refl)). discriminate.
Qed.

Lemma run_tests_uninstall tests st :
  sim (matrix_rel b testrunners)
    (run_tests (uninstall b h) tests testrunners)
    (run_tests h tests testrunners) st.
Proof.
  apply (run_tests_engines h _ testrunners (cell_rel b testrunners)).
  intros. now apply try_test_uninstall.
Qed.

End Uninstall.

(** C2, as the code has it.  Take any host and remove the engine binary
    [b].  The run ends in the same state and raises the same exception, if
    any; every cell whose runner launches [b] is recorded as ["fail"] (the
    label of a mismatch; there is no other label for a failed launch), and
    every other cell is what it is on the host that has [b]. *)
Theorem uninstalled_engine_cells_fail_others_unaffected :
  forall (h : Host) (b : string) (tests : list string)
         (testrunners : dict Runner) (st0 : State),
    let r1 := run_tests (uninstall b h) tests testrunners st0 in
    let r2 := run_tests h tests testrunners st0 in
    snd r1 = snd r2
    /\ match fst r1, fst r2 with
       | Ok m1, Ok m2 =>
           forall testmod testcmd test,
             dict_get testrunners testcmd = Some test ->
             (engine test = b ->
              forall x, cell m1 testmod testcmd = Some x ->
                        x = mkTestResult (Some "fail") None)
             /\ (engine test <> b ->
                 cell m1 testmod testcmd = cell m2 testmod testcmd)
       | Raise e1, Raise e2 => e1 = e2
       | _, _ => False
       end.
Proof.
  intros h b tests testrunners st0 r1 r2.
  destruct (run_tests_uninstall h b testrunners tests st0) as [Hs Hr].
  fold r1 r2 in Hs, Hr. split; [exact Hs |].
  clearbody r1 r2.
  destruct r1 as [[m1 | e1] st1], r2 as [[m2 | e2] st2]; simpl in *; auto.
  intros testmod testcmd test Etest. unfold cell.
  pose proof (dict_rel_get _ m1 m2 testmod Hr) as Hrow.
  destruct (dict_get m1 testmod) as [row1 |], (dict_get m2 testmod) as [row2 |];
    try contradiction.
  - pose proof (dict_rel_get _ row1 row2 testcmd Hrow) as Hcell.
    unfold cell_rel in Hcell. rewrite Etest in Hcell.
    destruct (dict_get row1 testcmd) as [x1 |],
             (dict_get row2 testcmd) as [x2 |]; try contradiction.
    + destruct (String.eqb_spec (engine test) b) as [Hb | Hb]; split;
        intros Hb'; try contradiction.
      * intros x [= <-]. exact Hcell.
      * now subst.
    + split; [intros _ x; discriminate | reflexivity].
  - split; [intros _ x; discriminate | reflexivity].
Qed.

(** C2 as stated fails: with [wasmtime] not installed, the launch raises
    [FileNotFoundError] and the cell is recorded as ["fail"], not as
    ["error"]. *)
Lemma launch_failure_is_not_recorded_as_error :
  let h := uninstall "wasmtime" (Example.host Example.quiet) in
  (forall args cwd stdin,
      subprocess_run h ("wasmtime" :: args) cwd stdin
      = Raise (FileNotFoundError "wasmtime"))
  /\ fst (run_tests h ["tests/b.wasm"] Example.only_wasmtime Example.st0)
     = Ok [("tests/b.wasm", [("wasmtime", mkTestResult (Some "fail") None)])]
  /\ status (mkTestResult (Some "fail") None) <> Some "error".
Proof.
  split; [reflexivity |]. split; [vm_compute; reflexivity | discriminate].
Qed.

(** ** Loading a specification *)

(** C3, as the code has it.  The exception of a specification that cannot
    be loaded leaves [run_tests]: the rows collected for the tests before
    it are lost, the tests after it are never run, and the module body
    stops before anything is rendered. *)
Theorem spec_error_aborts_run :
  forall (h : Host) (done rest : list string) (testmod : string)
         (testrunners : dict Runner) (st0 st1 st2 : State)
         (testresults : Matrix) (e : Exception),
    run_tests h done testrunners st0 = (Ok testresults, st1) ->
    json_load h (Str.replace testmod ".wasm" ".json") st1 = (Raise e, st2) ->
    run_tests h (done ++ testmod :: rest) testrunners st0 = (Raise e, st1)
    /\ forall k : Matrix -> M unit,
         (testresults <- run_tests h (done ++ testmod :: rest) testrunners ;;
          k testresults) st0 = (Raise e, st1).
Proof.
  intros h done rest testmod testrunners st0 st1 st2 testresults e Hdone Hload.
  assert (Hrun : run_tests h (done ++ testmod :: rest) testrunners st0
                 = (Raise e, st1)).
  { unfold run_tests in *. rewrite for_each_app. unfold bind at 1.
    rewrite Hdone. simpl. unfold bind at 1. unfold run_row at 1. cbv zeta.
    unfold bind at 1. rewrite Hload.
    pose proof (json_load_state h (Str.replace testmod ".wasm" ".json") st1) as E.
    rewrite Hload in E. simpl in E. now subst. }
  split; [exact Hrun |].
  intros k. unfold bind. now rewrite Hrun.
Qed.

Lemma spec_error_aborts_run_witness :
  run_tests (Example.host Example.quiet)
    ([] ++ "tests/missing.wasm" :: ["tests/b.wasm"]) testrunners Example.st0
  = (Raise (FileNotFoundError "tests/missing.json"), Example.st0)
  /\ forall k : Matrix -> M unit,
       (testresults <- run_tests (Example.host Example.quiet)
                         ([] ++ "tests/missing.wasm" :: ["tests/b.wasm"])
                         testrunners ;;
        k testresults) Example.st0
       = (Raise (FileNotFoundError "tests/missing.json"), Example.st0).
Proof.
  apply (spec_error_aborts_run (Example.host Example.quiet) []
           ["tests/b.wasm"] "tests/missing.wasm" testrunners
           Example.st0 Example.st0 Example.st0 []); reflexivity.
Defined.

(** C3 as stated fails: one missing document and the harness returns no
    outcome at all, whether the test comes first or last; without that
    test the other row is collected. *)
Lemma missing_spec_loses_every_row :
  let h := Example.host Example.quiet in
  fst (run_tests h ["tests/b.wasm"] Example.only_wasmtime Example.st0)
  = Ok [("tests/b.wasm", [("wasmtime", mkTestResult (Some "pass") None)])]
  /\ fst (run_tests h ["tests/b.wasm"; "tests/missing.wasm"]
            Example.only_wasmtime Example.st0)
     = Raise (FileNotFoundError "tests/missing.json")
  /\ fst (run_tests h ["tests/missing.wasm"; "tests/b.wasm"]
            Example.only_wasmtime Example.st0)
     = Raise (FileNotFoundError "tests/missing.json")
  /\ fst (main (mkHost (fun _ => ["tests/missing.wasm"; "tests/b.wasm"])
                 (decode h) (json_loads h) (json_dumps h) (JSON_parse h)
                 (os_path_abspath h) (mkdtemp_name h) (subprocess_run h))
            Example.st0)
     = Raise (FileNotFoundError "tests/missing.json").
Proof. vm_compute. repeat split. Qed.

(** ** The shape of the matrix *)

Lemma bind_Ok {A B} (m : M A) (k : A -> M B) st b st' :
  bind m k st = (Ok b, st') ->
  exists a st1, m st = (Ok a, st1) /\ k a st1 = (Ok b, st').
Proof.
  unfold bind. destruct (m st) as [[a | e] st1]; [eauto | discriminate].
Qed.

Section MatrixShape.
Variable h : Host.
Variable testrunners : dict Runner.

Lemma run_cell_shape testmod testspec testcmd pre row st res st' :
  ~ In testmod (dict_keys pre) ->
  ~ In testcmd (dict_keys row) ->
  run_cell h testrunners testmod testspec testcmd (pre ++ [(testmod, row)]) st
  = (Ok res, st') ->
  exists x, res = pre ++ [(testmod, row ++ [(testcmd, x)])] /\ status_ok x.
Proof.
  intros Hmod Hcmd Hrun. unfold run_cell in Hrun.
  apply bind_Ok in Hrun as (test & st1 & _ & Hrun).
  apply bind_Ok in Hrun as (testdir & st2 & _ & Hrun).
  apply bind_Ok in Hrun as ([] & st3 & _ & Hrun).
  apply bind_Ok in Hrun as (x & st4 & Htry & Hrun).
  apply bind_Ok in Hrun as (row' & st5 & Hrow & Hrun).
  rewrite getitem_state, dict_get_last in Hrow by assumption.
  injection Hrow as <- <-. injection Hrun as <- <-.
  exists x. split.
  - rewrite dict_set_last by assumption. now rewrite dict_set_fresh.
  - destruct (try_test_result h test testmod testdir testspec
                (mkTestResult None None) st3) as (s & E & Hs & _).
    rewrite E in Htry. injection Htry as <- _.
    destruct Hs as [-> | ->]; [left | right]; reflexivity.
Qed.

Lemma run_cells_shape testmod testspec pre todo :
  ~ In testmod (dict_keys pre) ->
  forall row st res st',
    NoDup (dict_keys row ++ todo) ->
    for_each todo (run_cell h testrunners testmod testspec)
      (pre ++ [(testmod, row)]) st = (Ok res, st') ->
    exists row',
      res = pre ++ [(testmod, row')]
      /\ dict_keys row' = dict_keys row ++ todo
      /\ (Forall status_ok (dict_values row) ->
          Forall status_ok (dict_values row')).
Proof.
  intros Hmod. induction todo as [| testcmd todo IH];
    intros row st res st' Hnd Hrun; simpl in Hrun.
  - injection Hrun as <- <-. exists row. now rewrite app_nil_r.
  - apply bind_Ok in Hrun as (res1 & st1 & Hcell & Hrun).
    assert (Hcmd : ~ In testcmd (dict_keys row)).
    { apply NoDup_remove_2 in Hnd. intros Hin. apply Hnd.
      apply in_or_app. now left. }
    destruct (run_cell_shape _ _ _ _ _ _ _ _ Hmod Hcmd Hcell)
      as (x & -> & Hx).
    apply IH in Hrun as (row' & -> & Hkeys & Hok).
    + exists row'. split; [reflexivity |]. split.
      * rewrite Hkeys. unfold dict_keys. rewrite map_app. simpl.
        now rewrite <- app_assoc.
      * intros Hrow. apply Hok. unfold dict_values. rewrite map_app.
        apply Forall_app. split; [exact Hrow | now constructor].
    + unfold dict_keys. rewrite map_app. simpl. now rewrite <- app_assoc.
Qed.

Lemma run_rows_shape todo :
  dict_wf testrunners ->
  forall acc st res st',
    NoDup (dict_keys acc ++ todo) ->
    for_each todo (run_row h testrunners) acc st = (Ok res, st') ->
    dict_keys res = dict_keys acc ++ todo
    /\ (Forall (row_ok testrunners) (dict_values acc) ->
        Forall (row_ok testrunners) (dict_values res)).
Proof.
  intros Hwf. induction todo as [| testmod todo IH];
    intros acc st res st' Hnd Hrun; simpl in Hrun.
  - injection Hrun as <- <-. now rewrite app_nil_r.
  - apply bind_Ok in Hrun as (res1 & st1 & Hrow & Hrun).
    assert (Hmod : ~ In testmod (dict_keys acc)).
    { apply NoDup_remove_2 in Hnd. intros Hin. apply Hnd.
      apply in_or_app. now left. }
    unfold run_row in Hrow. cbv zeta in Hrow.
    apply bind_Ok in Hrow as (testspec & st2 & _ & Hrow).
    rewrite dict_set_fresh in Hrow by assumption.
    apply run_cells_shape in Hrow as (row & -> & Hkeys & Hok); auto.
    apply IH in Hrun as [Hk Hr].
    + split.
      * rewrite Hk. unfold dict_keys. rewrite map_app. simpl.
        now rewrite <- app_assoc.
      * intros Hacc. apply Hr. unfold dict_values. rewrite map_app.
        apply Forall_app. split; [exact Hacc |].
        constructor; [| constructor]. split; [exact Hkeys |].
        apply Hok. constructor.
    + unfold dict_keys. rewrite map_app. simpl. now rewrite <- app_assoc.
Qed.

Lemma run_tests_shape tests st res st' :
  NoDup tests -> dict_wf testrunners ->
  run_tests h tests testrunners st = (Ok res, st') ->
  dict_keys res = tests /\ Forall (row_ok testrunners) (dict_values res).
Proof.
  intros Hnd Hwf Hrun. unfold run_tests in Hrun.
  destruct (run_rows_shape tests Hwf [] st res st' Hnd Hrun) as [Hk Hr].
  split; [exact Hk | apply Hr; constructor].
Qed.

End MatrixShape.

(** ** The rendered report *)

Section Rendering.

Lemma render_cells_closed (row : dict TestResult) written st :
  dict_wf row ->
  for_each (dict_keys row) (render_cell row) written st
  = (Ok (written ++ flat_map cell_chunks row), st).
Proof.
  intros Hwf.
  rewrite <- (for_each_append row cell_chunks).
  rewrite <- (for_each_ext_in row
                (fun kv acc => ret (acc ++ cell_chunks (fst kv, snd kv)))
                (fun kv acc => ret (acc ++ cell_chunks kv)))
    by (now intros [k v]).
  rewrite <- (for_each_items row
                (fun k v acc => ret (acc ++ cell_chunks (k, v))) Hwf).
  reflexivity.
Qed.

Lemma render_row_closed (testresults : Matrix) testmod row written st :
  dict_get testresults testmod = Some row ->
  dict_wf row ->
  render_row testresults testmod written st
  = (Ok (written ++ row_chunks (testmod, row)), st).
Proof.
  intros Hget Hwf. unfold render_row. cbv zeta.
  unfold bind at 1. rewrite getitem_state, Hget.
  unfold bind at 1. rewrite render_cells_closed by assumption.
  unfold ret, row_chunks. simpl fst; simpl snd.
  now rewrite <- !app_assoc.
Qed.

Lemma render_rows_closed (testresults : Matrix) written st :
  dict_wf testresults ->
  Forall dict_wf (dict_values testresults) ->
  for_each (dict_keys testresults) (render_row testresults) written st
  = (Ok (written ++ flat_map row_chunks testresults), st).
Proof.
  intros Hwf Hrows.
  assert (G : forall l acc,
             incl l testresults ->
             for_each (map fst l) (render_row testresults) acc st
             = (Ok (acc ++ flat_map row_chunks l), st)).
  { induction l as [| [testmod row] l IH]; intros acc Hincl; simpl.
    - now rewrite app_nil_r.
    - assert (Hin : In (testmod, row) testresults)
        by (apply Hincl; now left).
      unfold bind.
      rewrite (render_row_closed testresults testmod row).
      + rewrite IH by (intros x Hx; apply Hincl; now right).
        now rewrite <- app_assoc.
      + now apply dict_get_in.
      + rewrite Forall_forall in Hrows. apply Hrows.
        now apply (in_map snd) in Hin. }
  apply G. apply incl_refl.
Qed.

Lemma render_closed (testrunners : dict Runner) (testresults : Matrix) st :
  dict_wf testresults ->
  Forall dict_wf (dict_values testresults) ->
  render testrunners testresults st
  = (Ok (report_chunks testrunners testresults), st).
Proof.
  intros Hwf Hrows. unfold render. cbv zeta.
  unfold bind at 1.
  rewrite (for_each_append (dict_keys testrunners)
             (fun testcmd => ["<th>" +++ testcmd +++ "</th>"])).
  unfold bind at 1. rewrite render_rows_closed by assumption.
  unfold ret, report_chunks, report_head.
  now rewrite <- !app_assoc.
Qed.

End Rendering.

(** ** Reading the report back *)

Lemma length_append s1 s2 :
  String.length (s1 +++ s2) = String.length s1 + String.length s2.
Proof. induction s1 as [| c s1 IH]; simpl; [reflexivity | now rewrite IH]. Qed.

Lemma drop_append p s : Str.drop (String.length p) (p +++ s) = s.
Proof. induction p as [| c p IH]; simpl; [reflexivity | exact IH]. Qed.

Lemma take_append x s : Str.take (String.length x) (x +++ s) = x.
Proof.
  induction x as [| c x IH]; simpl; [reflexivity | now rewrite IH].
Qed.

Lemma prefix_append p s : String.prefix p (p +++ s) = true.
Proof.
  induction p as [| c p IH]; simpl.
  - now destruct s.
  - destruct (ascii_dec c c); [exact IH | contradiction].
Qed.

Lemma strip_affixes pre suf x : Str.strip pre suf (pre +++ x +++ suf) = Some x.
Proof.
  unfold Str.strip, Str.startswith, Str.endswith.
  rewrite prefix_append, drop_append, length_append.
  replace (String.length x + String.length suf - String.length suf)
    with (String.length x) by lia.
  rewrite drop_append, String.eqb_refl, take_append.
  replace (String.length suf <=? String.length x + String.length suf)%nat
    with true by (symmetry; apply Nat.leb_le; lia).
  reflexivity.
Qed.

Lemma filter_map_flat_map {A B C} (f : B -> option C) (g : A -> list B) l :
  filter_map f (flat_map g l) = flat_map (fun x => filter_map f (g x)) l.
Proof.
  induction l as [| x l IH]; simpl; [reflexivity |].
  now rewrite filter_map_app, IH.
Qed.

Lemma flat_map_nil {A B} (g : A -> list B) l :
  (forall x, In x l -> g x = []) -> flat_map g l = [].
Proof.
  induction l as [| x l IH]; intros Hg; simpl; [reflexivity |].
  rewrite (Hg x) by now left. apply IH. intros; apply Hg; now right.
Qed.

Lemma flat_map_singleton {A B} (g : A -> list B) (f : A -> B) l :
  (forall x, In x l -> g x = [f x]) -> flat_map g l = map f l.
Proof.
  induction l as [| x l IH]; intros Hg; simpl; [reflexivity |].
  rewrite (Hg x) by now left. simpl. f_equal.
  apply IH. intros; apply Hg; now right.
Qed.

Lemma flat_map_ext_in {A B} (g g' : A -> list B) l :
  (forall x, In x l -> g x = g' x) -> flat_map g l = flat_map g' l.
Proof.
  induction l as [| x l IH]; intros Hg; simpl; [reflexivity |].
  rewrite (Hg x) by now left. f_equal. apply IH. intros; apply Hg; now right.
Qed.

Section ReadBack.
Variable testrunners : dict Runner.
Variable testresults : dict (dict TestResult).
Hypothesis Hstatus :
  Forall (fun row => Forall status_ok (dict_values row))
    (dict_values testresults).

Lemma row_status (r : string * dict TestResult) :
  In r testresults -> forall c, In c (snd r) -> status_ok (snd c).
Proof.
  intros Hr c Hc. rewrite Forall_forall in Hstatus.
  specialize (Hstatus (snd r) (in_map snd _ _ Hr)).
  rewrite Forall_forall in Hstatus. apply Hstatus. now apply in_map.
Qed.

Lemma report_cells_closed :
  report_cells (report_chunks testrunners testresults)
  = flat_map (fun r => map (fun c => fmt (status (snd c))) (snd r))
      testresults.
Proof.
  unfold report_cells, report_chunks.
  rewrite !filter_map_app, !filter_map_flat_map.
  rewrite (flat_map_nil (fun testcmd => filter_map _ _))
    by (intros; reflexivity).
  change (filter_map (Str.strip "<td class='" "'>") report_head) with (@nil string).
  simpl app. rewrite app_nil_r.
  apply flat_map_ext_in. intros [testmod row] Hr.
  unfold row_chunks. rewrite !filter_map_app, filter_map_flat_map.
  simpl fst; simpl snd.
  change (filter_map (Str.strip "<td class='" "'>")
            ["<tr>"; "<td>" +++ testmod +++ "</td>"]) with (@nil string).
  simpl app. rewrite app_nil_r.
  apply flat_map_singleton. intros c Hc.
  destruct (row_status _ Hr c Hc) as [E | E];
    unfold cell_chunks; rewrite E; reflexivity.
Qed.

Lemma report_rows_closed :
  report_rows (report_chunks testrunners testresults)
  = dict_keys testresults.
Proof.
  unfold report_rows, report_chunks.
  rewrite !filter_map_app, !filter_map_flat_map.
  rewrite (flat_map_nil (fun testcmd => filter_map _ _))
    by (intros; reflexivity).
  change (filter_map (Str.strip "<td>" "</td>") report_head) with (@nil string).
  simpl app. rewrite app_nil_r.
  apply flat_map_singleton. intros [testmod row] Hr.
  unfold row_chunks. rewrite !filter_map_app, filter_map_flat_map.
  simpl fst; simpl snd.
  rewrite (flat_map_nil (fun c => filter_map _ _)).
  - pose proof (strip_affixes "<td>" "</td>" testmod) as E.
    cbn [String.append] in E. rewrite E. reflexivity.
  - intros c Hc.
    destruct (row_status _ Hr c Hc) as [E | E];
      unfold cell_chunks; rewrite E; reflexivity.
Qed.

Lemma report_columns_closed :
  report_columns (report_chunks testrunners testresults)
  = dict_keys testrunners.
Proof.
  unfold report_columns, report_chunks.
  rewrite !filter_map_app, !filter_map_flat_map.
  change (filter_map (Str.strip "<th>" "</th>") report_head) with ["Test"].
  rewrite (flat_map_singleton _ (fun testcmd : string => testcmd)).
  2: { intros testcmd _. unfold filter_map.
       now rewrite (strip_affixes "<th>" "</th>" testcmd). }
  rewrite map_id.
  rewrite (flat_map_nil (fun r => filter_map _ (row_chunks r))).
  - simpl. now rewrite app_nil_r.
  - intros [testmod row] Hr.
    unfold row_chunks. rewrite !filter_map_app, filter_map_flat_map.
    simpl fst; simpl snd.
    rewrite (flat_map_nil (fun c => filter_map _ _)); [reflexivity |].
    intros c Hc.
    destruct (row_status _ Hr c Hc) as [E | E];
      unfold cell_chunks; rewrite E; reflexivity.
Qed.

End ReadBack.

Lemma length_flat_map_const {A B} (g : A -> list B) (l : list A) n :
  (forall x, In x l -> List.length (g x) = n) ->
  List.length (flat_map g l) = List.length l * n.
Proof.
  induction l as [| x l IH]; intros Hg; simpl; [reflexivity |].
  rewrite length_app, (Hg x) by now left.
  rewrite IH; [reflexivity |]. intros; apply Hg; now right.
Qed.

Lemma flat_map_keys {V B} (g : string -> list B) (d : dict V) :
  flat_map g (dict_keys d) = flat_map (fun r => g (fst r)) d.
Proof.
  unfold dict_keys. induction d as [| r d IH]; simpl; [reflexivity |].
  now rewrite IH.
Qed.

Section Report.
Variable h : Host.
Variable testrunners : dict Runner.

(** What a finished run hands to the renderer. *)
Lemma run_tests_rendered tests st testresults st' :
  NoDup tests -> dict_wf testrunners ->
  run_tests h tests testrunners st = (Ok testresults, st') ->
  dict_keys testresults = tests
  /\ Forall (row_ok testrunners) (dict_values testresults)
  /\ render testrunners testresults st'
     = (Ok (report_chunks testrunners testresults), st')
  /\ Forall (fun row => Forall status_ok (dict_values row))
       (dict_values testresults).
Proof.
  intros Hnd Hwf Hrun.
  destruct (run_tests_shape h testrunners tests st testresults st' Hnd Hwf Hrun)
    as [Hkeys Hrows].
  split; [exact Hkeys |]. split; [exact Hrows |]. split.
  - apply render_closed.
    + unfold dict_wf. now rewrite Hkeys.
    + eapply Forall_impl; [| exact Hrows].
      intros row [Hk _]. unfold dict_wf. now rewrite Hk.
  - eapply Forall_impl; [| exact Hrows]. now intros row [_ Hs].
Qed.

Lemma row_labels testresults testmod row :
  dict_wf testresults -> In (testmod, row) testresults ->
  row_ok testrunners row -> dict_wf testrunners ->
  map (fun c => fmt (status (snd c))) row
  = map (label testresults testmod) (dict_keys testrunners).
Proof.
  intros Hwf Hin [Hkeys _] Hwfr.
  rewrite <- Hkeys. unfold dict_keys. rewrite map_map.
  apply map_ext_in. intros [testcmd x] Hc. simpl.
  unfold label, cell.
  rewrite (dict_get_in testresults testmod row Hwf Hin).
  rewrite (dict_get_in row testcmd x); [reflexivity | | exact Hc].
  unfold dict_wf. now rewrite Hkeys.
Qed.

End Report.

Lemma finished_run_report h tests testrunners st st' testresults :
  NoDup tests -> dict_wf testrunners ->
  run_tests h tests testrunners st = (Ok testresults, st') ->
  exists written,
    render testrunners testresults st' = (Ok written, st')
    /\ List.length (report_cells written)
       = List.length tests * List.length testrunners
    /\ Forall (fun l => (l = "pass" \/ l = "fail") /\ l <> fmt None)
         (report_cells written).
Proof.
  intros Hnd Hwf Hrun.
  destruct (run_tests_rendered h testrunners tests st testresults st'
              Hnd Hwf Hrun) as (Hkeys & Hrows & Hrender & Hstatus).
  exists (report_chunks testrunners testresults).
  split; [exact Hrender |].
  rewrite (report_cells_closed testrunners testresults Hstatus).
  rewrite Forall_forall in Hrows. split.
  - rewrite (length_flat_map_const _ _ (List.length testrunners)).
    + f_equal. rewrite <- Hkeys. unfold dict_keys. now rewrite length_map.
    + intros [testmod row] Hin. simpl. rewrite length_map.
      destruct (Hrows row (in_map snd _ _ Hin)) as [Hk _].
      apply (f_equal (@List.length string)) in Hk.
      unfold dict_keys in Hk. now rewrite !length_map in Hk.
  - apply Forall_forall. intros l Hl.
    apply in_flat_map in Hl as ([testmod row] & Hin & Hl). simpl in Hl.
    apply in_map_iff in Hl as ([testcmd x] & <- & Hx). simpl.
    destruct (Hrows row (in_map snd _ _ Hin)) as [_ Hs].
    rewrite Forall_forall in Hs.
    destruct (Hs x (in_map snd _ _ Hx)) as [E | E]; rewrite E; simpl;
      split; auto; discriminate.
Qed.

(** A run that completes on one host completes, in the same state, with
    any other engines behind [subprocess.run]. *)
Lemma run_tests_completes_with_engines h engines tests testrunners st st'
    testresults :
  run_tests h tests testrunners st = (Ok testresults, st') ->
  exists testresults',
    run_tests (with_engines engines h) tests testrunners st
    = (Ok testresults', st').
Proof.
  intros Hrun.
  destruct (run_tests_engines h engines testrunners (fun _ _ _ => True)
              (fun test testmod testdir testspec _ s _ =>
                 try_test_engines h engines test testmod testdir testspec s)
              tests st) as [Hs Hr].
  rewrite Hrun in Hs, Hr. simpl in Hs, Hr.
  destruct (run_tests (with_engines engines h) tests testrunners st)
    as [[testresults' | e] st1]; simpl in Hs, Hr; [| contradiction].
  subst st1. now exists testresults'.
Qed.

(** C8.  Whenever [run_tests] hands a matrix to the renderer, the report
    has one outcome cell per test and configured runner, and every cell
    is labelled ["pass"] or ["fail"], never [None].  This does not depend
    on the engines: with any other engines behind [subprocess.run], those
    that cannot be launched among them, the same run completes as well and
    its report has every cell, each with one of the two labels. *)
Theorem report_has_every_cell :
  forall (h : Host) (tests : list string) (testrunners : dict Runner)
         (st st' : State) (testresults : Matrix),
    NoDup tests -> dict_wf testrunners ->
    run_tests h tests testrunners st = (Ok testresults, st') ->
    (exists written,
        render testrunners testresults st' = (Ok written, st')
        /\ List.length (report_cells written)
           = List.length tests * List.length testrunners
        /\ Forall (fun l => (l = "pass" \/ l = "fail") /\ l <> fmt None)
             (report_cells written))
    /\ forall engines,
         exists testresults' written,
           run_tests (with_engines engines h) tests testrunners st
           = (Ok testresults', st')
           /\ render testrunners testresults' st' = (Ok written, st')
           /\ List.length (report_cells written)
              = List.length tests * List.length testrunners
           /\ Forall (fun l => (l = "pass" \/ l = "fail") /\ l <> fmt None)
                (report_cells written).
Proof.
  intros h tests testrunners st st' testresults Hnd Hwf Hrun. split.
  - now apply (finished_run_report h tests testrunners st).
  - intros engines.
    destruct (run_tests_completes_with_engines h engines tests testrunners
                st st' testresults Hrun) as (testresults' & Hrun').
    destruct (finished_run_report _ tests testrunners st st' testresults'
                Hnd Hwf Hrun') as (written & Hw).
    now exists testresults', written.
Qed.

Lemma report_has_every_cell_witness :
  (exists written,
      render testrunners Example.matrix (snd Example.run)
      = (Ok written, snd Example.run)
      /\ List.length (report_cells written) = 2 * 4
      /\ Forall (fun l => (l = "pass" \/ l = "fail") /\ l <> fmt None)
           (report_cells written))
  /\ exists testresults' written,
       run_tests (with_engines Example.absent (Example.host Example.quiet))
         ["tests/a.wasm"; "tests/b.wasm"] testrunners Example.st0
       = (Ok testresults', snd Example.run)
       /\ render testrunners testresults' (snd Example.run)
          = (Ok written, snd Example.run)
       /\ List.length (report_cells written) = 2 * 4
       /\ Forall (fun l => (l = "pass" \/ l = "fail") /\ l <> fmt None)
            (report_cells written).
Proof.
  destruct (report_has_every_cell (Example.host Example.quiet)
              ["tests/a.wasm"; "tests/b.wasm"] testrunners Example.st0
              (snd Example.run) Example.matrix) as [Hhere Hany].
  - repeat (constructor; [simpl; intuition discriminate |]). constructor.
  - unfold dict_wf. simpl.
    repeat (constructor; [simpl; intuition discriminate |]). constructor.
  - vm_compute. reflexivity.
  - split; [exact Hhere | exact (Hany Example.absent)].
Defined.

(** C9.  The rows of the report are the discovered tests in [sorted]
    order, that is, ordered by [String.leb]; the column headings after
    [Test] are the keys of the runner configuration in declaration order;
    and the cells follow, row by row, in that same column order. *)
Theorem report_rows_sorted_columns_declared :
  forall (h : Host) (testrunners : dict Runner) (st st' : State)
         (testresults : Matrix),
    NoDup (glob_glob h "tests/*.wasm") -> dict_wf testrunners ->
    run_tests h (tests h) testrunners st = (Ok testresults, st') ->
    exists written,
      render testrunners testresults st' = (Ok written, st')
      /\ report_rows written = sorted (glob_glob h "tests/*.wasm")
      /\ Sorted (fun a b => String.leb a b = true) (report_rows written)
      /\ Permutation (glob_glob h "tests/*.wasm") (report_rows written)
      /\ report_columns written = dict_keys testrunners
      /\ report_cells written
         = flat_map (fun testmod =>
                       map (label testresults testmod) (dict_keys testrunners))
             (report_rows written).
Proof.
  intros h testrunners st st' testresults Hnd Hwf Hrun.
  assert (Hperm : Permutation (glob_glob h "tests/*.wasm") (tests h))
    by apply StringSort.Permuted_sort.
  assert (Hnd' : NoDup (tests h)) by (eapply Permutation_NoDup; eauto).
  destruct (run_tests_rendered h testrunners (tests h) st testresults st'
              Hnd' Hwf Hrun) as (Hkeys & Hrows & Hrender & Hstatus).
  exists (report_chunks testrunners testresults).
  split; [exact Hrender |].
  rewrite (report_rows_closed testrunners testresults Hstatus), Hkeys.
  split; [reflexivity |]. split; [apply StringSort.Sorted_sort |].
  split; [exact Hperm |].
  split; [apply (report_columns_closed testrunners testresults Hstatus) |].
  rewrite (report_cells_closed testrunners testresults Hstatus).
  rewrite <- Hkeys, flat_map_keys.
  apply flat_map_ext_in. intros [testmod row] Hin. simpl.
  apply row_labels; auto.
  - unfold dict_wf. now rewrite Hkeys.
  - rewrite Forall_forall in Hrows. apply Hrows. now apply (in_map snd) in Hin.
Qed.

Lemma report_rows_sorted_columns_declared_witness :
  exists written,
    render testrunners Example.matrix (snd Example.run)
    = (Ok written, snd Example.run)
    /\ report_rows written = sorted ["tests/b.wasm"; "tests/a.wasm"]
    /\ Sorted (fun a b => String.leb a b = true) (report_rows written)
    /\ Permutation ["tests/b.wasm"; "tests/a.wasm"] (report_rows written)
    /\ report_columns written = dict_keys testrunners
    /\ report_cells written
       = flat_map (fun testmod =>
                     map (label Example.matrix testmod) (dict_keys testrunners))
           (report_rows written).
Proof.
  apply (report_rows_sorted_columns_declared (Example.host Example.quiet)
           testrunners Example.st0 (snd Example.run) Example.matrix).
  - repeat (constructor; [simpl; intuition discriminate |]). constructor.
  - unfold dict_wf. simpl.
    repeat (constructor; [simpl; intuition discriminate |]). constructor.
  - vm_compute. reflexivity.
Defined.

(** * Further properties of the code *)

(** ** When a run is accepted *)

(** The case analysis of [run_test], shared by the runner lemmas below. *)
Lemma run_test_accepts :
  forall (h : Host) (testcmd : list string) (testdir : string)
         (testspec : TestSpec.t) (st : State) (p : Process.t),
    fst (run_test h testcmd testdir testspec st) = Ok p
    <-> subprocess_run h testcmd testdir (TestSpec.stdin testspec) = Ok p
        /\ accepted testspec p.
Proof.
  intros h testcmd testdir testspec st p.
  unfold run_test, subprocess_run_in, bind, log, lift, accepted; simpl.
  destruct (subprocess_run h testcmd testdir (TestSpec.stdin testspec))
    as [q | e]; simpl.
  2: { split; [discriminate | intros [[=] _]]. }
  destruct (differs (TestSpec.stdout testspec) (Process.stdout q)) eqn:Eout;
    simpl.
  { split; [discriminate |]. intros ([= <-] & Hd & _). congruence. }
  unfold exit_matches, check_returncode.
  destruct (TestSpec.exitCode testspec) as [rc |]; simpl.
  - destruct (rc =? Process.returncode q)%Z eqn:Erc; simpl.
    + split; [intros [= <-]; auto |]. now intros ([= <-] & _).
    + split; [discriminate |]. intros ([= <-] & _ & Hrc). congruence.
  - destruct (Process.returncode q =? 0)%Z eqn:Erc; simpl.
    + split; [intros [= <-]; auto |]. now intros ([= <-] & _).
    + split; [discriminate |]. intros ([= <-] & _ & Hrc). congruence.
Qed.

(** [run_test] returns the completed process exactly when the engine could
    be launched, the captured stdout equals the expectation (if there is
    one) and the exit status is the expected one, or zero when none is
    expected.  An expected non-zero status is accepted. *)
Theorem run_test_returns_iff :
  forall (h : Host) (testcmd : list string) (testdir : string)
         (testspec : TestSpec.t) (st : State) (p : Process.t),
    fst (run_test h testcmd testdir testspec st) = Ok p
    <-> subprocess_run h testcmd testdir (TestSpec.stdin testspec) = Ok p
        /\ accepted testspec p.
Proof.
  intros h testcmd testdir testspec st p. split.
  - intros Hret. now apply run_test_accepts in Hret.
  - intros Hacc. now apply run_test_accepts.
Qed.

Lemma try_test_cases h test testmod testdir testspec st :
  (fst (try_test h test testmod testdir testspec (mkTestResult None None) st)
   = Ok (mkTestResult (Some "pass") None)
   /\ exists p, fst (call h test (os_path_abspath h testmod) testdir testspec st)
                = Ok p)
  \/ (fst (try_test h test testmod testdir testspec (mkTestResult None None) st)
      = Ok (mkTestResult (Some "fail") None)
      /\ exists e, fst (call h test (os_path_abspath h testmod) testdir
                          testspec st) = Raise e).
Proof.
  unfold try_test, try_except, bind, ret.
  destruct (call h test (os_path_abspath h testmod) testdir testspec st)
    as [[p | e] st']; simpl; [left | right]; split; eauto.
Qed.

(** The cell of a native runner is ["pass"] exactly when the engine,
    launched in the sandbox with the command line of the specification and
    the absolute program path, completes with the expected stdout and exit
    status; otherwise it is ["fail"]. *)
Theorem native_cell_pass_iff :
  forall (h : Host) (testmod testdir : string) (testspec : TestSpec.t)
         (st : State),
    let env := match TestSpec.env testspec with Some e => e | None => [] end in
    let preopens :=
      match TestSpec.preopens testspec with Some p => p | None => [] end in
    let args := match TestSpec.args testspec with Some a => a | None => [] end in
    let verdict := fun test =>
      fst (try_test h test testmod testdir testspec (mkTestResult None None) st) in
    let completes := fun binary =>
      exists p,
        subprocess_run h
          (native_cmd binary (os_path_abspath h testmod) env preopens args)
          testdir (TestSpec.stdin testspec) = Ok p
        /\ accepted testspec p in
    dict_wf env -> dict_wf preopens ->
    (verdict Fn_run_wasmtime_test = Ok (mkTestResult (Some "pass") None)
     <-> completes "wasmtime")
    /\ (verdict Fn_run_wasmer_test = Ok (mkTestResult (Some "pass") None)
        <-> completes "wasmer")
    /\ (verdict Fn_run_wasmtime_test = Ok (mkTestResult (Some "pass") None)
        \/ verdict Fn_run_wasmtime_test = Ok (mkTestResult (Some "fail") None))
    /\ (verdict Fn_run_wasmer_test = Ok (mkTestResult (Some "pass") None)
        \/ verdict Fn_run_wasmer_test = Ok (mkTestResult (Some "fail") None)).
Proof.
  intros h testmod testdir testspec st env preopens args verdict completes
         Henv Hpre.
  assert (Hone : forall test binary,
            (forall m d (s : TestSpec.t) st',
                call h test m d s st'
                = native_runner h binary m d s
                    (mkState (fs st') (events st' ++ [EvCall test m d]))) ->
            (verdict test = Ok (mkTestResult (Some "pass") None)
             <-> completes binary)
            /\ (verdict test = Ok (mkTestResult (Some "pass") None)
                \/ verdict test = Ok (mkTestResult (Some "fail") None))).
  { intros test binary Hcall. unfold verdict, completes.
    pose proof (try_test_cases h test testmod testdir testspec st) as Hcases.
    rewrite Hcall in Hcases.
    rewrite (native_runner_cmd h binary (os_path_abspath h testmod) testdir
               testspec _ Henv Hpre) in Hcases.
    fold env preopens args in Hcases. split.
    - split.
      + intros Hpass. destruct Hcases as [(_ & p & Hp) | (Hfail & _)].
        * exists p. now apply run_test_accepts in Hp.
        * rewrite Hpass in Hfail. discriminate.
      + intros (p & Hp). destruct Hcases as [(Hpass & _) | (_ & e & He)].
        * exact Hpass.
        * apply (run_test_accepts h _ testdir testspec
                   (mkState (fs st)
                      (events st ++ [EvCall test (os_path_abspath h testmod)
                                       testdir]))) in Hp.
          rewrite Hp in He. discriminate.
    - destruct Hcases as [(Hpass & _) | (Hfail & _)]; auto. }
  destruct (Hone Fn_run_wasmtime_test "wasmtime") as [H1 H2];
    [intros; reflexivity |].
  destruct (Hone Fn_run_wasmer_test "wasmer") as [H3 H4];
    [intros; reflexivity |].
  auto.
Qed.

Lemma native_cell_pass_iff_witness :
  fst (try_test (Example.host Example.quiet) Fn_run_wasmtime_test
         "tests/a.wasm" "/tmp/tmp" Example.specA (mkTestResult None None)
         Example.st0)
  = Ok (mkTestResult (Some "pass") None)
  <-> exists p,
        subprocess_run (Example.host Example.quiet)
          [ "wasmtime"; "run"; "--env"; "HOME=/";
            "--mapdir"; "/fixtures::fixtures";
            "/work/tests/a.wasm"; "--"; "--flag" ]
          "/tmp/tmp" None = Ok p
        /\ accepted Example.specA p.
Proof.
  apply (native_cell_pass_iff (Example.host Example.quiet) "tests/a.wasm"
           "/tmp/tmp" Example.specA Example.st0).
  - unfold dict_wf; simpl. constructor; [intros [] | constructor].
  - unfold dict_wf; simpl. constructor; [intros [] | constructor].
Defined.

(** ** The bootstrap runners *)

Lemma write_file_cases path content st :
  write_file path content st
  = match resolve (fs st) path with
    | AtFile target _ | AtNothing target =>
        (Ok tt, mkState (dict_set (fs st) target (FsFile content)) (events st))
    | AtDir _ _ _ => (Raise (IsADirectoryError path), st)
    | TooManyLinks => (Raise (OSError "ELOOP" path), st)
    end.
Proof.
  unfold write_file, bind, get_fs.
  now destruct (resolve (fs st) path).
Qed.

(** [run_deno_test] first writes the bootstrap to the file that
    [.test.deno.ts] in the harness directory leads to (the path itself
    unless it is a symbolic link), replacing any file there, then launches
    [deno] once in the sandbox and is accepted as [run_test] says.  When
    the path leads to a directory, or through too many links, the write
    fails and [deno] is not launched. *)
Theorem run_deno_test_writes_bootstrap :
  forall (h : Host) (testmod testdir : string) (testspec : TestSpec.t)
         (st : State),
    match resolve (fs st) ".test.deno.ts" with
    | AtDir _ _ _ =>
        run_deno_test h testmod testdir testspec st
        = (Raise (IsADirectoryError ".test.deno.ts"), st)
    | TooManyLinks =>
        run_deno_test h testmod testdir testspec st
        = (Raise (OSError "ELOOP" ".test.deno.ts"), st)
    | AtFile target _ | AtNothing target =>
        snd (run_deno_test h testmod testdir testspec st)
        = mkState (dict_set (fs st) target (FsFile deno_script))
            (events st
               ++ [EvSpawn (deno_cmd h testmod testspec) testdir
                     (TestSpec.stdin testspec)])
        /\ forall p,
             fst (run_deno_test h testmod testdir testspec st) = Ok p
             <-> subprocess_run h (deno_cmd h testmod testspec) testdir
                   (TestSpec.stdin testspec) = Ok p
                 /\ accepted testspec p
    end.
Proof.
  intros h testmod testdir testspec st.
  pose proof (write_file_cases ".test.deno.ts" deno_script st) as Hw.
  unfold run_deno_test. cbv zeta. unfold bind. rewrite Hw.
  destruct (resolve (fs st) ".test.deno.ts") as [q c | q m e | q |];
    try reflexivity;
    (split; [now rewrite run_test_state | intros p; apply run_test_accepts]).
Qed.

(** [test_node] never launches anything: it writes [.node.js] (the file
    that path leads to; nothing when it leads to a directory or through too
    many links) and then fails on the undefined name [filepath], so a
    column configured with it holds ["fail"] in every row. *)
Theorem test_node_never_launches :
  forall (h : Host) (testmod testdir : string) (testspec : TestSpec.t)
         (st : State),
    match resolve (fs st) ".node.js" with
    | AtDir _ _ _ =>
        test_node h testmod testdir testspec st
        = (Raise (IsADirectoryError ".node.js"), st)
    | TooManyLinks =>
        test_node h testmod testdir testspec st
        = (Raise (OSError "ELOOP" ".node.js"), st)
    | AtFile target _ | AtNothing target =>
        test_node h testmod testdir testspec st
        = (Raise (NameError "filepath"),
           mkState (dict_set (fs st) target (FsFile node_script))
             (events st))
    end
    /\ fst (try_test h Fn_test_node testmod testdir testspec
              (mkTestResult None None) st)
       = Ok (mkTestResult (Some "fail") None).
Proof.
  intros h testmod testdir testspec st. split.
  - pose proof (write_file_cases ".node.js" node_script st) as Hw.
    unfold test_node. cbv zeta. unfold bind. rewrite Hw.
    destruct (resolve (fs st) ".node.js"); reflexivity.
  - apply try_test_of_raises. unfold call.
    apply raises_bind_r; intros _. unfold test_node. cbv zeta.
    apply raises_bind_r; intros _. apply raises_bind_l, raises_raise.
Qed.

(** For a document without [args] the deno bootstrap hands the guest the
    program path followed by [undefined]: [concat] appends a value that is
    not an array as one element.  (The native runners read the missing key
    as the empty list.) *)
Theorem deno_bootstrap_without_args :
  forall (h : Host) (testmod : string) (testspec : TestSpec.t),
    JSON_parse h (json_dumps h testspec) = Some (js_of_spec testspec) ->
    TestSpec.args testspec = None ->
    deno_bootstrap h [json_dumps h testspec; testmod]
    = Some (mkWasiOptions
              (js_of_option js_of_dict (TestSpec.env testspec))
              [JsString testmod; JsUndefined]
              (js_of_option js_of_dict (TestSpec.preopens testspec))).
Proof.
  intros h testmod testspec Hparse Hargs.
  unfold deno_bootstrap. rewrite Hparse.
  destruct (js_prop_of_spec testspec) as (-> & -> & ->).
  rewrite Hargs. reflexivity.
Qed.

Lemma deno_bootstrap_without_args_witness :
  deno_bootstrap (Example.host Example.quiet) ["B"; "/work/tests/b.wasm"]
  = Some (mkWasiOptions JsUndefined
            [JsString "/work/tests/b.wasm"; JsUndefined] JsUndefined).
Proof.
  apply (deno_bootstrap_without_args (Example.host Example.quiet)
           "/work/tests/b.wasm" Example.specB); reflexivity.
Defined.

(** ** The path of the specification document *)

Lemma replace_from_cons old new c s :
  Str.replace_from 0 old new (String c s)
  = if String.prefix old (String c s)
    then new +++ Str.replace_from (String.length old - 1) old new s
    else String c (Str.replace_from 0 old new s).
Proof. reflexivity. Qed.

Lemma contains_cons c s p :
  Str.contains (String c s) p = String.prefix p (String c s) || Str.contains s p.
Proof. reflexivity. Qed.

(** An occurrence of [.wasm] that starts inside [s] lies inside [s]: the
    appended extension cannot complete it. *)
Lemma prefix_wasm_append s :
  s <> "" ->
  String.prefix ".wasm" (s +++ ".wasm") = true ->
  String.prefix ".wasm" s = true.
Proof.
  intros Hne H. apply String.prefix_correct in H. apply String.prefix_correct.
  assert (Hnil : forall x, substring 0 0 x = "") by (intros []; reflexivity).
  destruct s as [| c1 [| c2 [| c3 [| c4 [| c5 s]]]]]; simpl in *;
    rewrite ?Hnil in *; congruence.
Qed.

(** For a program path that ends in [.wasm] and has no other [.wasm] in it,
    the specification document is the same path with [.json] instead. *)
Theorem spec_path_of_wasm_path :
  forall stem : string,
    Str.contains stem ".wasm" = false ->
    Str.replace (stem +++ ".wasm") ".wasm" ".json" = stem +++ ".json".
Proof.
  unfold Str.replace. induction stem as [| c stem IH]; intros Hno.
  - reflexivity.
  - rewrite contains_cons in Hno. apply orb_false_iff in Hno as [Hpre Hrest].
    change (String c stem +++ ".wasm") with (String c (stem +++ ".wasm")).
    rewrite replace_from_cons.
    destruct (String.prefix ".wasm" (String c (stem +++ ".wasm"))) eqn:E.
    + apply (prefix_wasm_append (String c stem)) in E; congruence.
    + rewrite IH by assumption. reflexivity.
Qed.

Lemma spec_path_of_wasm_path_witness :
  Str.replace ("tests/args.wasm") ".wasm" ".json" = "tests/args.json".
Proof.
  apply (spec_path_of_wasm_path "tests/args"). reflexivity.
Defined.

(** A path without [.wasm] is left as it is: for such a test [run_tests]
    opens the program path itself as the document. *)
Theorem spec_path_without_wasm :
  forall testmod : string,
    Str.contains testmod ".wasm" = false ->
    Str.replace testmod ".wasm" ".json" = testmod.
Proof.
  unfold Str.replace. induction testmod as [| c s IH]; intros Hno.
  - reflexivity.
  - rewrite contains_cons in Hno. apply orb_false_iff in Hno as [Hpre Hrest].
    rewrite replace_from_cons, Hpre, IH by assumption. reflexivity.
Qed.

Lemma spec_path_without_wasm_witness :
  Str.replace "tests/args.wat" ".wasm" ".json" = "tests/args.wat".
Proof.
  apply (spec_path_without_wasm "tests/args.wat"). reflexivity.
Defined.

(** ** One cell of a run *)

Lemma dict_get_key {V} (d : dict V) k :
  In k (dict_keys d) -> exists v, dict_get d k = Some v.
Proof.
  unfold dict_keys. induction d as [| [k' v'] d IH]; simpl; [intros [] |].
  intros Hin. destruct (String.eqb_spec k' k) as [-> | Hne]; [eauto |].
  destruct Hin as [E | Hin]; [contradiction | auto].
Qed.

Lemma dict_keys_set_same {V} (d : dict V) k v : In k (dict_keys (dict_set d k v)).
Proof.
  unfold dict_keys. induction d as [| [k' v'] d IH]; simpl; [now left |].
  destruct (String.eqb_spec k' k) as [-> | Hne]; simpl; [now left | now right].
Qed.

Lemma dict_set_Forall {V} (P : V -> Prop) (d : dict V) k v :
  Forall P (dict_values d) -> P v -> Forall P (dict_values (dict_set d k v)).
Proof.
  unfold dict_values. induction d as [| [k' v'] d IH]; simpl; intros Hd Hv.
  - now constructor.
  - inversion Hd; subst. destruct (k' =? k); simpl; constructor; auto.
Qed.

Lemma calls_app l1 l2 : calls (l1 ++ l2) = calls l1 ++ calls l2.
Proof. apply filter_map_app. Qed.

Lemma spawns_only (P : list string -> Prop) d tail :
  Forall (fun e => exists cmd stdin, e = EvSpawn cmd d stdin /\ P cmd) tail ->
  calls tail = [] /\ sandboxes tail = [].
Proof.
  induction 1 as [| e l (cmd & stdin & -> & _) _ IH]; simpl; auto.
Qed.

Section OneCell.
Variable h : Host.
Variable testrunners : dict Runner.

(** A cell that completes: the runner of its column was called once, in a
    sandbox made and filled for it, and one of the two cells was stored. *)
Lemma run_cell_Ok testmod testspec testcmd res st res' st' :
  run_cell h testrunners testmod testspec testcmd res st = (Ok res', st') ->
  exists test d x row tail,
    dict_get testrunners testcmd = Some test
    /\ dict_get res testmod = Some row
    /\ recorded x
    /\ res' = dict_set res testmod (dict_set row testcmd x)
    /\ events st'
       = events st
           ++ EvMkdtemp d
           :: EvCopytree "tests/fixtures" (os_path_join d "fixtures") true
           :: EvCall test (os_path_abspath h testmod) d :: tail
    /\ Forall (fun e => exists cmd stdin,
                   e = EvSpawn cmd d stdin /\ hd "" cmd = engine test) tail.
Proof.
  intros Hrun. unfold run_cell in Hrun.
  apply bind_Ok in Hrun as (test & st1 & Hget & Hrun).
  rewrite getitem_state in Hget.
  destruct (dict_get testrunners testcmd) as [test' |] eqn:Etest;
    [| discriminate].
  injection Hget as -> <-.
  apply bind_Ok in Hrun as (d & st2 & Hmk & Hrun).
  rewrite mkdtemp_state in Hmk. cbv zeta in Hmk.
  destruct (dict_get (fs st) (mkdtemp_name h (dict_keys (fs st))));
    [discriminate |].
  injection Hmk as <- <-.
  apply bind_Ok in Hrun as ([] & st3 & Hcp & Hrun).
  rewrite copytree_state in Hcp. simpl fs in Hcp. simpl events in Hcp.
  set (d := mkdtemp_name h (dict_keys (fs st))) in *.
  destruct (resolve (dict_set (fs st) d (FsDir 448 [])) "tests/fixtures")
    as [q c | q mode entries | q |]; try discriminate.
  destruct (dict_get (dict_set (fs st) d (FsDir 448 []))
              (os_path_join d "fixtures")); [discriminate |].
  injection Hcp as <-.
  apply bind_Ok in Hrun as (x & st4 & Htry & Hrun).
  apply bind_Ok in Hrun as (row & st5 & Hrow & Hrun).
  rewrite getitem_state in Hrow.
  destruct (dict_get res testmod) as [row' |] eqn:Erow; [| discriminate].
  injection Hrow as -> <-. injection Hrun as <- <-.
  match type of Htry with
  | try_test _ _ _ _ _ _ ?s = _ =>
      destruct (try_test_result h test testmod d testspec
                  (mkTestResult None None) s) as (s' & E & Hs & _);
      destruct (call_effect h test (os_path_abspath h testmod) d testspec s)
        as (f' & tail & Est & _ & Htail)
  end.
  rewrite E in Htry. injection Htry as <- <-.
  exists test, d, (set_status (mkTestResult None None) s'), row, tail.
  repeat split; auto.
  - destruct Hs as [-> | ->]; [left | right]; reflexivity.
  - rewrite Est. simpl. now rewrite <- !app_assoc.
Qed.

(** A cell that does not complete failed while its sandbox was made or
    filled: whatever the runner raises is caught. *)
Lemma run_cell_Raise testmod testspec testcmd res st e st' :
  In testcmd (dict_keys testrunners) -> In testmod (dict_keys res) ->
  run_cell h testrunners testmod testspec testcmd res st = (Raise e, st') ->
  (exists s, tempfile_mkdtemp h s = (Raise e, st'))
  \/ (exists testdir s,
         shutil_copytree "tests/fixtures" (os_path_join testdir "fixtures")
           true s = (Raise e, st')).
Proof.
  intros Hcmd Hmod Hrun. unfold run_cell in Hrun.
  destruct (dict_get_key _ _ Hcmd) as (test & Etest).
  destruct (dict_get_key _ _ Hmod) as (row & Erow).
  unfold bind at 1 in Hrun. rewrite getitem_state, Etest in Hrun.
  unfold bind at 1 in Hrun.
  destruct (tempfile_mkdtemp h st) as [[d | e1] st1] eqn:Emk.
  2: { injection Hrun as <- <-. left. now exists st. }
  unfold bind at 1 in Hrun.
  destruct (shutil_copytree "tests/fixtures" (os_path_join d "fixtures") true
              st1) as [[[] | e1] st2] eqn:Ecp.
  2: { injection Hrun as <- <-. right. now exists d, st1. }
  unfold bind at 1 in Hrun.
  destruct (try_test_result h test testmod d testspec
              (mkTestResult None None) st2) as (s' & E & _).
  rewrite E in Hrun. unfold bind in Hrun.
  rewrite getitem_state, Erow in Hrun. discriminate.
Qed.

End OneCell.

(** ** A whole run *)

Lemma for_each_Ok_inv {A B} (P : B -> Prop) (l : list A) (body : A -> B -> M B) :
  (forall x acc st acc' st',
      In x l -> P acc -> body x acc st = (Ok acc', st') -> P acc') ->
  forall acc st acc' st',
    P acc -> for_each l body acc st = (Ok acc', st') -> P acc'.
Proof.
  induction l as [| x l IH]; intros Hbody acc st acc' st' Hacc Hrun;
    simpl in Hrun.
  - now injection Hrun as <- _.
  - apply bind_Ok in Hrun as (acc1 & st1 & Hx & Hrun).
    apply (IH (fun y a s a' s' Hy => Hbody y a s a' s' (or_intror Hy))
              acc1 st1 acc' st'); [| exact Hrun].
    eapply Hbody; eauto. now left.
Qed.

Lemma for_each_Raise_inv {A B} (P : B -> Prop)
    (Q : Exception -> State -> Prop) (l : list A) (body : A -> B -> M B) :
  (forall x acc st acc' st',
      In x l -> P acc -> body x acc st = (Ok acc', st') -> P acc') ->
  (forall x acc st e st',
      In x l -> P acc -> body x acc st = (Raise e, st') -> Q e st') ->
  forall acc st e st',
    P acc -> for_each l body acc st = (Raise e, st') -> Q e st'.
Proof.
  induction l as [| x l IH]; intros Hok Hraise acc st e st' Hacc Hrun;
    simpl in Hrun; [discriminate |].
  unfold bind in Hrun.
  destruct (body x acc st) as [[acc1 | e1] st1] eqn:Ex.
  - apply (IH (fun y a s a' s' Hy => Hok y a s a' s' (or_intror Hy))
              (fun y a s e' s' Hy => Hraise y a s e' s' (or_intror Hy))
              acc1 st1 e st'); [| exact Hrun].
    eapply Hok; eauto. now left.
  - injection Hrun as <- <-. eapply Hraise; eauto. now left.
Qed.

Lemma json_load_raises h path st e st' :
  json_load h path st = (Raise e, st') -> runner_exception e = false.
Proof.
  unfold json_load, read_file, bind, get_fs; simpl.
  destruct (resolve (fs st) path) as [q c | q m en | q |];
    unfold ret, raise; simpl.
  - destruct (decode h c) as [text |];
      [| intros H; inversion H; reflexivity].
    destruct (json_loads h text); [discriminate |].
    intros H; inversion H; reflexivity.
  - intros H; inversion H; reflexivity.
  - intros H; inversion H; reflexivity.
  - intros H; inversion H; reflexivity.
Qed.

Lemma mkdtemp_raises h st e st' :
  tempfile_mkdtemp h st = (Raise e, st') -> runner_exception e = false.
Proof.
  rewrite mkdtemp_state. cbv zeta.
  destruct (dict_get (fs st) (mkdtemp_name h (dict_keys (fs st))));
    [| discriminate].
  intros H; inversion H; reflexivity.
Qed.

Lemma copytree_raises src dst st e st' :
  shutil_copytree src dst true st = (Raise e, st') ->
  runner_exception e = false.
Proof.
  rewrite copytree_state.
  destruct (resolve (fs st) src) as [q c | q m en | q |];
    try (intros H; inversion H; reflexivity).
  destruct (dict_get (fs st) dst); [| discriminate].
  intros H; inversion H; reflexivity.
Qed.

(** What leaves [run_tests] as an exception was raised by one of the
    statements outside the [try], with the state that statement left: the
    loading of the document of one of the tests (a missing file, a
    directory, bytes that do not decode, a text that is not JSON), the
    making of a sandbox, or the copying of the fixtures.  What a runner
    raises of itself ([AssertionError], [CalledProcessError], [NameError],
    [AttributeError]) never leaves [run_tests]. *)
Theorem run_tests_raises_only_outside_try :
  forall (h : Host) (tests : list string) (testrunners : dict Runner)
         (st st' : State) (e : Exception),
    run_tests h tests testrunners st = (Raise e, st') ->
    raised_outside_try h tests e st' /\ runner_exception e = false.
Proof.
  intros h tests testrunners st st' e Hrun. unfold run_tests in Hrun.
  apply (for_each_Raise_inv (fun _ => True)
           (fun e st' => raised_outside_try h tests e st'
                         /\ runner_exception e = false)
           tests (run_row h testrunners)) with (3 := I) (4 := Hrun); [auto |].
  clear. intros testmod res st e st' Hmod _ Hrow.
  unfold run_row in Hrow. cbv zeta in Hrow. unfold bind in Hrow.
  destruct (json_load h (Str.replace testmod ".wasm" ".json") st)
    as [[testspec | e1] st1] eqn:Eload.
  - apply (for_each_Raise_inv (fun m => In testmod (dict_keys m))
             (fun e st' => raised_outside_try h tests e st'
                           /\ runner_exception e = false)
             (dict_keys testrunners)
             (run_cell h testrunners testmod testspec))
      with (4 := Hrow).
    + intros testcmd acc s acc' s' _ Hacc Hcell.
      apply run_cell_Ok in Hcell as (? & ? & ? & ? & ? & _ & _ & _ & -> & _).
      apply dict_keys_set_same.
    + intros testcmd acc s e' s' Hin Hacc Hcell.
      destruct (run_cell_Raise h testrunners _ _ _ _ _ _ _ Hin Hacc Hcell)
        as [(s0 & Hmk) | (d & s0 & Hcp)].
      * split; [right; left; now exists s0 | eapply mkdtemp_raises; eauto].
      * split; [right; right; now exists d, s0 |
                eapply copytree_raises; eauto].
    + apply dict_keys_set_same.
  - injection Hrow as <- <-. split.
    + left. now exists testmod, st.
    + eapply json_load_raises; eauto.
Qed.

Lemma run_tests_raises_only_outside_try_witness :
  raised_outside_try (Example.host Example.quiet) ["tests/b.wasm"]
    UnicodeDecodeError Example.latin1_st
  /\ runner_exception UnicodeDecodeError = false.
Proof.
  apply (run_tests_raises_only_outside_try (Example.host Example.quiet)
           ["tests/b.wasm"] testrunners Example.latin1_st Example.latin1_st).
  vm_compute. reflexivity.
Defined.

(** Every cell of a returned matrix is one of two values: status ["pass"]
    or ["fail"], with the [error] entry still [None]; nothing ever fills
    [error]. *)
Theorem cells_are_pass_or_fail_without_error :
  forall (h : Host) (tests : list string) (testrunners : dict Runner)
         (st st' : State) (testresults : Matrix),
    run_tests h tests testrunners st = (Ok testresults, st') ->
    forall testmod testcmd x,
      cell testresults testmod testcmd = Some x ->
      recorded x /\ error x = None.
Proof.
  intros h tests testrunners st st' testresults Hrun testmod testcmd x Hcell.
  set (P := fun m : Matrix =>
              Forall (fun row => Forall recorded (dict_values row))
                (dict_values m)).
  assert (HP : P testresults).
  { unfold run_tests in Hrun.
    apply (for_each_Ok_inv P tests (run_row h testrunners))
      with (3 := Hrun); [| constructor].
    intros t acc s acc' s' _ Hacc Hrow.
    unfold run_row in Hrow. cbv zeta in Hrow.
    apply bind_Ok in Hrow as (testspec & s1 & _ & Hrow).
    apply (for_each_Ok_inv P (dict_keys testrunners)
             (run_cell h testrunners t testspec)) with (3 := Hrow).
    - intros c m s2 m' s2' _ Hm Hc.
      apply run_cell_Ok in Hc
        as (test & d & y & row & tail & _ & Hrowget & Hy & -> & _).
      apply dict_set_Forall; [exact Hm |].
      apply dict_set_Forall; [| exact Hy].
      unfold P in Hm. rewrite Forall_forall in Hm. apply Hm.
      eapply dict_get_in_values; eauto.
    - apply dict_set_Forall; [exact Hacc | constructor]. }
  unfold cell in Hcell.
  destruct (dict_get testresults testmod) as [row |] eqn:Erow; [| discriminate].
  unfold P in HP. rewrite Forall_forall in HP.
  specialize (HP row (dict_get_in_values _ _ _ Erow)).
  rewrite Forall_forall in HP.
  specialize (HP x (dict_get_in_values _ _ _ Hcell)).
  split; [exact HP |]. now destruct HP as [-> | ->].
Qed.

Lemma cells_are_pass_or_fail_without_error_witness :
  recorded (mkTestResult (Some "pass") None)
  /\ error (mkTestResult (Some "pass") None) = None.
Proof.
  apply (cells_are_pass_or_fail_without_error (Example.host Example.quiet)
           (tests (Example.host Example.quiet)) testrunners Example.st0
           (snd Example.run) Example.matrix)
    with (testmod := "tests/a.wasm") (testcmd := "node");
    vm_compute; reflexivity.
Defined.

Lemma map_some_inj {A B} (l1 l2 : list (A * B)) :
  map (fun c => (Some (fst c), snd c)) l1
  = map (fun c => (Some (fst c), snd c)) l2 ->
  l1 = l2.
Proof.
  revert l2. induction l1 as [| [a b] l1 IH]; intros [| [a' b'] l2]; simpl;
    try discriminate; [reflexivity |].
  intros [= -> -> Hl]. f_equal. now apply IH.
Qed.

Section CallOrder.
Variable h : Host.
Variable testrunners : dict Runner.

Lemma run_cells_calls testmod testspec l :
  forall res st res' st',
    for_each l (run_cell h testrunners testmod testspec) res st = (Ok res', st') ->
    exists new,
      events st' = events st ++ new
      /\ map (fun c => (Some (fst c), snd c)) (calls new)
         = map (fun k => (dict_get testrunners k, os_path_abspath h testmod)) l
      /\ List.length (sandboxes new) = List.length l.
Proof.
  induction l as [| testcmd l IH]; intros res st res' st' Hrun; simpl in Hrun.
  - injection Hrun as _ <-. exists []. now rewrite app_nil_r.
  - apply bind_Ok in Hrun as (res1 & st1 & Hcell & Hrun).
    apply run_cell_Ok in Hcell
      as (test & d & x & row & tail & Etest & _ & _ & _ & Hev & Htail).
    apply IH in Hrun as (new & Hev' & Hcalls & Hlen).
    destruct (spawns_only _ _ _ Htail) as [Hc Hs].
    exists (([ EvMkdtemp d;
               EvCopytree "tests/fixtures" (os_path_join d "fixtures") true;
               EvCall test (os_path_abspath h testmod) d ] ++ tail) ++ new).
    split; [rewrite Hev', Hev, <- !app_assoc; reflexivity |].
    rewrite !calls_app, !sandboxes_app, Hc, Hs. simpl.
    rewrite Etest, Hcalls, Hlen. auto.
Qed.

Lemma run_rows_calls tests :
  forall res st res' st',
    for_each tests (run_row h testrunners) res st = (Ok res', st') ->
    exists new,
      events st' = events st ++ new
      /\ map (fun c => (Some (fst c), snd c)) (calls new)
         = flat_map (fun t =>
                       map (fun k => (dict_get testrunners k, os_path_abspath h t))
                         (dict_keys testrunners)) tests
      /\ List.length (sandboxes new)
         = List.length tests * List.length testrunners.
Proof.
  induction tests as [| t tests IH]; intros res st res' st' Hrun;
    simpl in Hrun.
  - injection Hrun as _ <-. exists []. now rewrite app_nil_r.
  - apply bind_Ok in Hrun as (res1 & st1 & Hrow & Hrun).
    unfold run_row in Hrow. cbv zeta in Hrow.
    apply bind_Ok in Hrow as (testspec & st0 & Hload & Hrow).
    pose proof (json_load_state h (Str.replace t ".wasm" ".json") st) as Est.
    rewrite Hload in Est. simpl in Est. subst st0.
    apply run_cells_calls in Hrow as (new1 & Hev1 & Hc1 & Hl1).
    apply IH in Hrun as (new2 & Hev2 & Hc2 & Hl2).
    exists (new1 ++ new2). split; [now rewrite Hev2, Hev1, app_assoc |].
    rewrite calls_app, sandboxes_app, map_app, length_app. simpl.
    rewrite Hc1, Hc2, Hl1, Hl2. split; [reflexivity |].
    unfold dict_keys. rewrite length_map. reflexivity.
Qed.

End CallOrder.

(** A run that completes has called the runners test by test, in the order
    of the configuration within each test, each with the absolute path of
    the program, and has made one sandbox per call:
    [|tests| * |testrunners|] in all. *)
Theorem runners_called_in_row_major_order :
  forall (h : Host) (tests : list string) (testrunners : dict Runner)
         (st st' : State) (testresults : Matrix),
    dict_wf testrunners ->
    run_tests h tests testrunners st = (Ok testresults, st') ->
    exists new,
      events st' = events st ++ new
      /\ calls new
         = flat_map (fun testmod =>
                       map (fun kv => (snd kv, os_path_abspath h testmod))
                         testrunners) tests
      /\ List.length (sandboxes new)
         = List.length tests * List.length testrunners.
Proof.
  intros h tests testrunners st st' testresults Hwf Hrun.
  unfold run_tests in Hrun.
  apply run_rows_calls in Hrun as (new & Hev & Hcalls & Hlen).
  exists new. split; [exact Hev |]. split; [| exact Hlen].
  apply map_some_inj. rewrite Hcalls.
  clear - Hwf. induction tests as [| t tests IH]; simpl; [reflexivity |].
  rewrite map_app, IH. f_equal.
  unfold dict_keys. rewrite !map_map. apply map_ext_in.
  intros [k test] Hin. simpl. now rewrite (dict_get_in _ _ _ Hwf Hin).
Qed.

Lemma runners_called_in_row_major_order_witness :
  exists new,
    events (snd Example.run) = events Example.st0 ++ new
    /\ calls new
       = flat_map (fun testmod =>
                     map (fun kv => (snd kv, "/work/" +++ testmod)) testrunners)
           ["tests/a.wasm"; "tests/b.wasm"]
    /\ List.length (sandboxes new) = 2 * 4.
Proof.
  apply (runners_called_in_row_major_order (Example.host Example.quiet)
           ["tests/a.wasm"; "tests/b.wasm"] testrunners Example.st0
           (snd Example.run) Example.matrix).
  - unfold dict_wf. simpl.
    repeat (constructor; [simpl; intuition discriminate |]). constructor.
  - vm_compute. reflexivity.
Defined.


(** The sandbox directory and the copy of the fixtures are made outside the
    [try]: when the fixture tree is missing, the first cell raises
    [FileNotFoundError] out of [run_tests], no runner is called, no cell is
    recorded, and the empty sandbox stays behind. *)
Theorem missing_fixtures_abort_run :
  forall (h : Host) (testmod testcmd : string) (test : Runner)
         (rest : list string) (more : dict Runner) (st : State)
         (testspec : Document),
    fst (json_load h (Str.replace testmod ".wasm" ".json") st) = Ok testspec ->
    dict_get (fs st) "tests/fixtures" = None ->
    dict_get (fs st) (mkdtemp_name h (dict_keys (fs st))) = None ->
    mkdtemp_name h (dict_keys (fs st)) <> "tests/fixtures" ->
    run_tests h (testmod :: rest) ((testcmd, test) :: more) st
    = (Raise (FileNotFoundError "tests/fixtures"),
       mkState
         (dict_set (fs st) (mkdtemp_name h (dict_keys (fs st))) (FsDir 448 []))
         (events st ++ [EvMkdtemp (mkdtemp_name h (dict_keys (fs st)))])).
Proof.
  intros h testmod testcmd test rest more st testspec Hload Hsrc Hfresh Hne.
  pose proof (json_load_state h (Str.replace testmod ".wasm" ".json") st) as Est.
  destruct (json_load h (Str.replace testmod ".wasm" ".json") st)
    as [r st1] eqn:Eload. simpl in Hload, Est. subst r st1.
  unfold run_tests. simpl for_each. unfold bind at 1. unfold run_row.
  cbv zeta. unfold bind at 1. rewrite Eload.
  simpl dict_keys. simpl for_each. unfold bind at 1. unfold run_cell.
  unfold bind at 1. rewrite getitem_state. simpl dict_get.
  rewrite String.eqb_refl.
  unfold bind at 1. rewrite mkdtemp_state. cbv zeta. rewrite Hfresh.
  unfold bind at 1. rewrite copytree_state. simpl fs.
  rewrite resolve_missing; [reflexivity |].
  now rewrite dict_get_set_other.
Qed.

Lemma missing_fixtures_abort_run_witness :
  run_tests (Example.host Example.quiet) ("tests/b.wasm" :: ["tests/a.wasm"])
    (("deno", Fn_run_deno_test) :: [("wasmtime", Fn_run_wasmtime_test)])
    (mkState [("tests/b.json", FsFile "B")] [])
  = (Raise (FileNotFoundError "tests/fixtures"),
     mkState [("tests/b.json", FsFile "B"); ("/tmp/tmpx", FsDir 448 [])]
       [EvMkdtemp "/tmp/tmpx"]).
Proof.
  apply (missing_fixtures_abort_run (Example.host Example.quiet)
           "tests/b.wasm" "deno" Fn_run_deno_test ["tests/a.wasm"]
           [("wasmtime", Fn_run_wasmtime_test)]
           (mkState [("tests/b.json", FsFile "B")] [])
           (DocObject Example.specB));
    [reflexivity | reflexivity | reflexivity | discriminate].
Defined.

(** ** The module body *)

Lemma for_each_state {A B} (l : list A) (body : A -> B -> M B) :
  (forall x acc st, snd (body x acc st) = st) ->
  forall acc st, snd (for_each l body acc st) = st.
Proof.
  intros Hbody. induction l as [| x l IH]; intros acc st; simpl; [reflexivity |].
  unfold bind. specialize (Hbody x acc st).
  destruct (body x acc st) as [[acc' | e] st1]; simpl in Hbody; subst st1.
  - apply IH.
  - reflexivity.
Qed.

Lemma render_state testrunners testresults st :
  snd (render testrunners testresults st) = st.
Proof.
  assert (Hcell : forall row testcmd written s,
             snd (render_cell row testcmd written s) = s).
  { intros. unfold render_cell, bind. rewrite getitem_state.
    now destruct (dict_get row testcmd). }
  assert (Hrow : forall testmod written s,
             snd (render_row testresults testmod written s) = s).
  { intros. unfold render_row. cbv zeta. unfold bind at 1.
    rewrite getitem_state.
    destruct (dict_get testresults testmod) as [row |]; [| reflexivity].
    unfold bind.
    pose proof (for_each_state (dict_keys row) (render_cell row) (Hcell row)
                  (written ++ ["<tr>"; "<td>" +++ testmod +++ "</td>"]) s) as E.
    destruct (for_each (dict_keys row) (render_cell row) _ s) as [[w | e] s1];
      simpl in E; now subst. }
  unfold render. cbv zeta. unfold bind at 1.
  rewrite (for_each_append (dict_keys testrunners)
             (fun testcmd => ["<th>" +++ testcmd +++ "</th>"])).
  unfold bind.
  match goal with
  | |- context [for_each (dict_keys testresults) ?b ?w st] =>
      pose proof (for_each_state (dict_keys testresults) b Hrow w st) as E;
      destruct (for_each (dict_keys testresults) b w st) as [[w' | e] s1]
  end; simpl in E; now subst.
Qed.

(** When every cell has been run, the module body writes the report to
    the file [index.html] leads to (the path itself unless it is a
    symbolic link), replacing a file there; when [index.html] leads to a
    directory, or through too many links, it raises only then, after all
    the tests have run. *)
Theorem main_writes_report :
  forall (h : Host) (st st' : State) (testresults : Matrix),
    NoDup (glob_glob h "tests/*.wasm") ->
    run_tests h (tests h) testrunners st = (Ok testresults, st') ->
    main h st
    = match resolve (fs st') "index.html" with
      | AtDir _ _ _ => (Raise (IsADirectoryError "index.html"), st')
      | TooManyLinks => (Raise (OSError "ELOOP" "index.html"), st')
      | AtFile target _ | AtNothing target =>
          (Ok tt,
           mkState
             (dict_set (fs st') target
                (FsFile (String.concat ""
                           (report_chunks testrunners testresults))))
             (events st'))
      end.
Proof.
  intros h st st' testresults Hnd Hrun.
  assert (Hnd' : NoDup (tests h)).
  { eapply Permutation_NoDup; [apply StringSort.Permuted_sort | exact Hnd]. }
  assert (Hwf : dict_wf testrunners).
  { unfold dict_wf. simpl.
    repeat (constructor; [simpl; intuition discriminate |]). constructor. }
  destruct (run_tests_rendered h testrunners (tests h) st testresults st'
              Hnd' Hwf Hrun) as (_ & _ & Hrender & _).
  unfold main. unfold bind at 1. rewrite Hrun.
  unfold bind at 1. rewrite Hrender.
  pose proof (write_file_cases "index.html"
                (String.concat "" (report_chunks testrunners testresults)) st')
    as Hw.
  rewrite Hw. now destruct (resolve (fs st') "index.html").
Qed.

Lemma main_writes_report_witness :
  main (Example.host Example.quiet) Example.st0
  = (Ok tt,
     mkState
       (dict_set (fs (snd Example.run)) "index.html"
          (FsFile (String.concat ""
                     (report_chunks testrunners Example.matrix))))
       (events (snd Example.run))).
Proof.
  apply (main_writes_report (Example.host Example.quiet) Example.st0
           (snd Example.run) Example.matrix).
  - repeat (constructor; [simpl; intuition discriminate |]). constructor.
  - vm_compute. reflexivity.
Defined.
